(** * Metal_gui: the main window of the Metal GUI (qiskit_metal/_gui/main_window.py)

    The window is GUI orchestration: every method is a sequence of calls to
    collaborators (the circuit, the drawing utilities, the tree widgets, Qt
    dialogs, the Metal logger) interleaved with assignments to the window's
    own attributes.  The embedding keeps exactly that:

    - the window's attributes are a record [Window];
    - a call to a collaborator is an event [Ev call outcome] appended to a
      chronological trace; what the collaborator answers (a value or a raised
      exception) is decided by the environment's [oracle],
      which may depend on the whole history;
    - Python exceptions are an error monad over the state, with
      [try_except] and [try_finally] as the source uses them. *)

From Stdlib Require Import Ascii String.
From stdpp Require Import base strings list gmap.

Open Scope string_scope.
Open Scope list_scope.

(** ** Python values the window handles *)

(** Identity of an object owned by a collaborator (a dict, a widget, a
    handler, a module): the window only ever passes these around. *)
Definition Ref := nat.

(** A path of [pathlib]; [p / q] joins with a separator. *)
Definition Path := string.

Definition path_join (p q : Path) : Path := p +:+ "/" +:+ q.

(** The newline character of the source's string literals. *)
Definition nl : string := String (Ascii.ascii_of_nat 10) EmptyString.

(** The part of the exception hierarchy the source's handlers tell apart:
    [except ImportError] catches [ImportError] and its subclass
    [ModuleNotFoundError]; [except Exception] catches everything but the
    classes that derive from [BaseException] only. *)
Inductive ExnClass :=
| ImportError
| ModuleNotFoundError
| AttributeError
| TypeError
| OtherException (name : string)
| KeyboardInterrupt
| SystemExit.

Definition is_ImportError (c : ExnClass) : bool :=
  match c with
  | ImportError | ModuleNotFoundError => true
  | _ => false
  end.

Definition is_Exception (c : ExnClass) : bool :=
  match c with
  | KeyboardInterrupt | SystemExit => false
  | _ => true
  end.

(** A raised exception: its class and [str(e)]. *)
Record Exn := mkExn { exn_class : ExnClass; exn_str : string }.

(** The triple [(type, value, tb)] handed to [sys.excepthook]. *)
Record ExcTriple := mkTriple { et_type : string; et_value : string; et_tb : list string }.

(** A circuit object: its identity and the two attributes the window reads,
    [circ.OBJECTS] and [circ.params] (either may be [None]). *)
Record Circ := mkCirc {
  circ_ref : Ref;
  circ_OBJECTS : option Ref;
  circ_params : option Ref
}.

(** A class found in a module: its identity and its [_img] attribute when it
    has one ([hasattr(metal_class, '_img')]). *)
Record MetalClass := mkClass { class_ref : Ref; class__img : option string }.

(** [my_args] of [Dialog_create_metal.get_params]: the entries read. *)
Record CreateArgs := mkArgs { arg_name : string; arg_options : option Ref }.

(** The answer of [QMessageBox.question]. *)
Inductive StandardButton := Yes | No | OtherButton (code : nat).

(** A tree widget with the [dock] attribute the window attaches to it. *)
Record TreeWidget := mkTree { tree_widget : Ref; tree_dock : option Ref }.

(** Closures the window hands out, defunctionalised: the inner function
    [create_metal_obj] of [add_metal_object] captures [metal_class]. *)
Inductive Callback := create_metal_obj_closure (metal_class : MetalClass).

(** What [sys.excepthook] holds: the interpreter's hook, or the inner
    function [excepthook] of [_setup_logging] (which captures [self]). *)
Inductive ExceptHook := interpreter_excepthook | window_excepthook.

(** [re_draw_func]: "Function used when processing the drawing"; returns
    its argument. *)
Definition re_draw_func (x : option Ref) : option Ref := x.

(** ** Calls to collaborators, indexed by the type of what they return *)

Inductive Call : Type -> Type :=
(* the Metal logger *)
| logger_debug (msg : string) : Call unit
| logger_info (msg : string) : Call unit
| logger_warning (msg : string) : Call unit
| logger_error (msg : string) : Call unit
(* the drawing window *)
| setStatusTip (fig_window : Ref) (tip : string) : Call unit
| canvas_hide (fig_draw : Ref) : Call unit
| canvas_show (fig_draw : Ref) : Call unit
| canvas_draw (fig_draw : Ref) : Call unit
| clear_me (ax_draw : Ref) : Call unit
| draw_all_objects (OBJECTS : option Ref) (ax : Ref)
    (func : option Ref -> option Ref) : Call unit
| plot_simple_gui_style (ax : Ref) : Call unit
(* tree widgets *)
| rebuild (tree : Ref) : Call unit
| change_content_dict (tree : Ref) (content : option Ref) : Call unit
(* the circuit *)
| make_all_objects (c : Circ) : Call unit
| circ_clear_all_objects (c : Circ) : Call unit
| plot_connectors (c : Circ) (ax : Ref) : Call unit
| gds_draw_all (c : Circ) (filename : string) : Call unit
(* persistence *)
| save_metal (filename : string) (c : Circ) : Call unit
| load_metal (filename : string) : Call Circ
(* dialogs *)
| QMessageBox_question (title text : string) : Call StandardButton
| getSaveFileName (caption : string) : Call string
| getOpenFileName (caption : string) : Call string
| Dialog_create_metal (metal_class : MetalClass) : Call Ref
| get_params (form : Ref) : Call (bool * CreateArgs)
| new_metal_object (metal_class : MetalClass) (c : Circ) (name : string)
    (options : option Ref) : Call unit
(* add_metal_object *)
| import_module (name : string) : Call Ref
| getattr_module (module : Ref) (class_name : string) : Call MetalClass
| is_file (p : Path) : Call bool
| add_toolbar_icon (toolbar : Ref) (name : string) (img : Path)
    (callback : Callback) (label : string) : Call unit
(* logging set-up and docks *)
| Logging_Window_Widget (imgs_path : Path) : Call Ref
| add_logger (logger_window : Ref) (name : string) : Call unit
| Logging_Hander_for_Log_Widget (name : string) : Call Ref
| QDockWidget (name : string) : Call Ref
| dock_setWidget (dock widget : Ref) : Call unit
| dock_setFloating (dock : Ref) (floating : bool) : Call unit
| dock_toggleViewAction (dock : Ref) : Call Ref
| menu_addAction (menu action : Ref) : Call unit
| addDockWidget (area : string) (dock : Ref) : Call unit
| dock_setMinimumWidth (dock : Ref) (width : nat) : Call unit
| tabifyDockWidget (first second : Ref) : Call unit
| import_DEFAULT_OPTIONS : Call (option Ref)
(* the exception hook *)
| log_message_to (logger_window : Ref) (section msg : string) : Call unit
| print_exception (t : ExcTriple) : Call unit
(* closeEvent *)
| print (msg : string) : Call unit
| super_closeEvent (event : Ref) : Call unit
(* the callback boundary: a stack trace written to the log panel *)
| log_panel_stack_trace (text : string) : Call unit.

Inductive Outcome (R : Type) :=
| Returns (r : R)
| Raises (e : Exn).
Arguments Returns {R} r.
Arguments Raises {R} e.

(** One completed call: what was called, and how it ended. *)
Record Event := Ev { ev_type : Type; ev_call : Call ev_type; ev_outcome : Outcome ev_type }.
Arguments Ev {ev_type} ev_call ev_outcome.

(** The contents of the mappings the collaborators own, by identity. *)
Definition Dict := gmap string Ref.
Definition Store := gmap Ref (gmap string Ref).

(** The environment: how each collaborator answers after a given history,
    what a completed call does to the mappings, and the text functions of
    the [traceback] module and of f-string formatting. *)
Record Env := mkEnv {
  oracle : forall R, list Event -> Call R -> Outcome R;
  effect : forall R, Call R -> Outcome R -> Store -> Store;
  format_exc : Exn -> string;
  format_exception : ExcTriple -> list string;
  repr_exc_info : Exn -> string
}.
Arguments oracle _ {R} _ _.
Arguments effect _ {R} _ _ _.

(** ** The window and the process state around it *)

Record Window := mkWindow {
  circ : Circ;
  _OBJECTS : option Ref;
  _DEFAULT_OPTIONS : option Ref;
  imgs_path : option Path;
  fig_draw : option Ref;
  fig_window : option Ref;
  ax_draw : option Ref;
  menu_view : option Ref;
  tree : option TreeWidget;
  tree_def_ops : option TreeWidget;
  tree_circ_ops : option TreeWidget;
  logger_window : option Ref;
  _log_handler : option Ref;
  _logger_excepthook : option ExceptHook;
  logView_dock : option Ref;
  created : gmap string Callback
}.

Record World := mkWorld {
  win : Window;
  trace : list Event;
  store : Store;
  handlers : list Ref;
  sys_excepthook : ExceptHook
}.

(** Assignments to the window's attributes. *)
Definition with_circ (c : Circ) (w : Window) : Window :=
  mkWindow c (_OBJECTS w) (_DEFAULT_OPTIONS w) (imgs_path w) (fig_draw w)
    (fig_window w) (ax_draw w) (menu_view w) (tree w) (tree_def_ops w)
    (tree_circ_ops w) (logger_window w) (_log_handler w)
    (_logger_excepthook w) (logView_dock w) (created w).

Definition with_OBJECTS (o : option Ref) (w : Window) : Window :=
  mkWindow (circ w) o (_DEFAULT_OPTIONS w) (imgs_path w) (fig_draw w)
    (fig_window w) (ax_draw w) (menu_view w) (tree w) (tree_def_ops w)
    (tree_circ_ops w) (logger_window w) (_log_handler w)
    (_logger_excepthook w) (logView_dock w) (created w).

Definition with_DEFAULT_OPTIONS (o : option Ref) (w : Window) : Window :=
  mkWindow (circ w) (_OBJECTS w) o (imgs_path w) (fig_draw w)
    (fig_window w) (ax_draw w) (menu_view w) (tree w) (tree_def_ops w)
    (tree_circ_ops w) (logger_window w) (_log_handler w)
    (_logger_excepthook w) (logView_dock w) (created w).

Definition with_logger_window (lw : Ref) (w : Window) : Window :=
  mkWindow (circ w) (_OBJECTS w) (_DEFAULT_OPTIONS w) (imgs_path w) (fig_draw w)
    (fig_window w) (ax_draw w) (menu_view w) (tree w) (tree_def_ops w)
    (tree_circ_ops w) (Some lw) (_log_handler w)
    (_logger_excepthook w) (logView_dock w) (created w).

Definition with_log_handler (h : Ref) (w : Window) : Window :=
  mkWindow (circ w) (_OBJECTS w) (_DEFAULT_OPTIONS w) (imgs_path w) (fig_draw w)
    (fig_window w) (ax_draw w) (menu_view w) (tree w) (tree_def_ops w)
    (tree_circ_ops w) (logger_window w) (Some h)
    (_logger_excepthook w) (logView_dock w) (created w).

Definition with_logger_excepthook (k : ExceptHook) (w : Window) : Window :=
  mkWindow (circ w) (_OBJECTS w) (_DEFAULT_OPTIONS w) (imgs_path w) (fig_draw w)
    (fig_window w) (ax_draw w) (menu_view w) (tree w) (tree_def_ops w)
    (tree_circ_ops w) (logger_window w) (_log_handler w)
    (Some k) (logView_dock w) (created w).

Definition with_logView_dock (d : Ref) (w : Window) : Window :=
  mkWindow (circ w) (_OBJECTS w) (_DEFAULT_OPTIONS w) (imgs_path w) (fig_draw w)
    (fig_window w) (ax_draw w) (menu_view w) (tree w) (tree_def_ops w)
    (tree_circ_ops w) (logger_window w) (_log_handler w)
    (_logger_excepthook w) (Some d) (created w).

(** [setattr(self, name, callback)]. *)
Definition with_created (name : string) (cb : Callback) (w : Window) : Window :=
  mkWindow (circ w) (_OBJECTS w) (_DEFAULT_OPTIONS w) (imgs_path w) (fig_draw w)
    (fig_window w) (ax_draw w) (menu_view w) (tree w) (tree_def_ops w)
    (tree_circ_ops w) (logger_window w) (_log_handler w)
    (_logger_excepthook w) (logView_dock w) (<[name := cb]> (created w)).

(** ** Statements with exceptions: a state and error monad *)

Inductive Result (A : Type) :=
| Ok (a : A)
| Err (e : Exn).
Arguments Ok {A} a.
Arguments Err {A} e.

Definition M (A : Type) : Type := World -> Result A * World.

Definition ret {A} (a : A) : M A := fun s => (Ok a, s).

Definition raise {A} (e : Exn) : M A := fun s => (Err e, s).

Definition bind {A B} (m : M A) (k : A -> M B) : M B :=
  fun s =>
    match m s with
    | (Ok a, s') => k a s'
    | (Err e, s') => (Err e, s')
    end.

Declare Scope py_scope.
Delimit Scope py_scope with py.
Bind Scope py_scope with M.
Notation "'let*' x := m 'in' k" := (bind m (fun x => k))
  (at level 10, x name, m at level 100, k at level 200) : py_scope.
Notation "m >> k" := (bind m (fun _ => k))
  (at level 90, right associativity) : py_scope.
Open Scope py_scope.

(** [try: body / except C as e: handler e], [C] given by the classes it
    catches. *)
Definition try_except {A} (catches : ExnClass -> bool) (body : M A)
    (handler : Exn -> M A) : M A :=
  fun s =>
    match body s with
    | (Ok a, s') => (Ok a, s')
    | (Err e, s') =>
        if catches (exn_class e) then handler e s' else (Err e, s')
    end.

(** [try: body / finally: final]: [final] always runs; what [body] raised is
    raised again afterwards unless [final] raises itself. *)
Definition try_finally {A} (body : M A) (final : M unit) : M A :=
  fun s =>
    match body s with
    | (r, s') =>
        match final s' with
        | (Ok _, s'') => (r, s'')
        | (Err e, s'') => (Err e, s'')
        end
    end.

(** Reading an attribute that a set-up method creates: [AttributeError]
    while it does not exist. *)
Definition attr {A} (name : string) (field : Window -> option A) : M A :=
  fun s =>
    match field (win s) with
    | Some a => (Ok a, s)
    | None =>
        (Err (mkExn AttributeError
                ("'Metal_gui' object has no attribute '" +:+ name +:+ "'")), s)
    end.

Definition get_win : M Window := fun s => (Ok (win s), s).

Definition assign (f : Window -> Window) : M unit :=
  fun s =>
    (Ok tt, mkWorld (f (win s)) (trace s) (store s) (handlers s) (sys_excepthook s)).

Definition set_sys_excepthook (k : ExceptHook) : M unit :=
  fun s => (Ok tt, mkWorld (win s) (trace s) (store s) (handlers s) k).

Definition get_handlers : M (list Ref) := fun s => (Ok (handlers s), s).

Definition set_handlers (l : list Ref) : M unit :=
  fun s => (Ok tt, mkWorld (win s) (trace s) (store s) l (sys_excepthook s)).

(** ** Strings and lists of the source *)

(** [s.replace(a, b)] for single characters. *)
Fixpoint replace_char (a b : Ascii.ascii) (s : string) : string :=
  match s with
  | EmptyString => EmptyString
  | String c r => String (if Ascii.eqb c a then b else c) (replace_char a b r)
  end.

(** [s.split(sep)] for a single character: never the empty list. *)
Fixpoint split_on (sep : Ascii.ascii) (s : string) : list string :=
  match s with
  | EmptyString => [EmptyString]
  | String c r =>
      if Ascii.eqb c sep then EmptyString :: split_on sep r
      else match split_on sep r with
           | x :: xs => String c x :: xs
           | [] => [String c EmptyString]
           end
  end.

(** [s[n:]] and [s[:n]]. *)
Definition str_from (n : nat) (s : string) : string :=
  String.substring n (String.length s - n) s.

Definition str_upto (n : nat) (s : string) : string := String.substring 0 n s.

(** [l.pop(i)] on the list, for [i] within range. *)
Fixpoint pop (i : nat) (l : list Ref) : list Ref :=
  match l, i with
  | [], _ => []
  | _ :: t, O => t
  | x :: t, S j => x :: pop j t
  end.

(** The label of a toolbar button, from [tool_name]. *)
Definition toolbar_label (tool_name : string) : string :=
  let label := replace_char "_"%char " "%char tool_name in
  let label := if String.prefix "Metal " label then str_from 6 label else label in
  if Nat.ltb 14 (String.length label)
  then str_upto (String.length label / 2) label +:+ "-" +:+ nl
         +:+ str_from (String.length label / 2) label
  else label.

(** ** The methods of [Metal_gui] *)

Section Metal_gui.

Context (E : Env).

(** A completed call leaves its event on the trace and its effect on the
    mappings. *)
Definition record {R} (c : Call R) (o : Outcome R) (s : World) : World :=
  mkWorld (win s) (trace s ++ [Ev c o]) (effect E c o (store s))
    (handlers s) (sys_excepthook s).

Definition call {R} (c : Call R) : M R :=
  fun s =>
    match oracle E (trace s) c with
    | Returns r => (Ok r, record c (Returns r) s)
    | Raises e => (Err e, record c (Raises e) s)
    end.

(** Modelled from the spec: the decorator [catch_exception_slot_pyqt] of
    [_handle_qt_messages], which is not among the sources.  "Failures inside
    UI callbacks are caught at the callback boundary, logged with a full stack
    trace to a visible log panel, and the application continues running":
    the stack trace written to the log panel is the event
    [log_panel_stack_trace], which completes. *)
Definition log_stack_trace (e : Exn) (s : World) : World :=
  record (log_panel_stack_trace (format_exc E e)) (Returns tt) s.

(** Modelled from the spec: the decorator [catch_exception_slot_pyqt] (see
    [log_stack_trace]): whatever the decorated body raises is caught and
    logged, and the slot returns. *)
Definition catch_exception_slot_pyqt (body : M unit) : M unit :=
  fun s =>
    match body s with
    | (Ok _, s') => (Ok tt, s')
    | (Err e, s') => (Ok tt, log_stack_trace e s')
    end.

(** [logging.Logger.addHandler] of the standard library: appends the handler
    unless the list holds it already. *)
Definition addHandler (h : Ref) : M unit :=
  let* l := get_handlers in
  if bool_decide (h ∈ l) then ret tt else set_handlers (l ++ [h]).

(** [_add_dock(name, widget, location, minimum_width=None)] *)
Definition _add_dock (name : string) (widget : Ref) (location : string)
    (minimum_width : option nat) : M Ref :=
  let* dock := call (QDockWidget name) in
  call (dock_setWidget dock widget) >>
  call (dock_setFloating dock false) >>
  let* mv := attr "menu_view" menu_view in
  let* action := call (dock_toggleViewAction dock) in
  call (menu_addAction mv action) >>
  call (addDockWidget (location +:+ "DockWidgetArea") dock) >>
  match minimum_width with
  | Some (S w) => call (dock_setMinimumWidth dock (S w))
  | _ => ret tt
  end >>
  ret dock.

(** The inner function [excepthook(type, value, tb)] of [_setup_logging]. *)
Definition excepthook (t : ExcTriple) : M unit :=
  let traceback_string := String.concat nl (format_exception E t) in
  let* lw := attr "logger_window" logger_window in
  call (log_message_to lw "Errors" traceback_string) >>
  call (print_exception t).

(** Calling what [sys.excepthook] holds. *)
Definition run_excepthook (k : ExceptHook) (t : ExcTriple) : M unit :=
  match k with
  | window_excepthook => excepthook t
  | interpreter_excepthook => call (print_exception t)
  end.

(** [_setup_logging(catch_exceptions=True)] *)
Definition _setup_logging (catch_exceptions : bool) : M unit :=
  let* ip := attr "imgs_path" imgs_path in
  let* lw := call (Logging_Window_Widget ip) in
  assign (with_logger_window lw) >>
  let* lw := attr "logger_window" logger_window in
  call (add_logger lw "Metal") >>
  let* h := call (Logging_Hander_for_Log_Widget "Metal") in
  assign (with_log_handler h) >>
  let* h := attr "_log_handler" _log_handler in
  addHandler h >>
  assign (with_logger_excepthook window_excepthook) >>
  (if catch_exceptions then set_sys_excepthook window_excepthook else ret tt) >>
  let* lw := attr "logger_window" logger_window in
  let* dock := _add_dock "Logs" lw "Right" None in
  assign (with_logView_dock dock) >>
  let* t := attr "tree_def_ops" tree_def_ops in
  let* d := (match tree_dock t with
             | Some d => ret d
             | None => raise (mkExn AttributeError
                         "'Tree_Default_Options' object has no attribute 'dock'")
             end) in
  let* ld := attr "logView_dock" logView_dock in
  call (tabifyDockWidget d ld).

(** The loop of [_logging_remove_handler]: [for i, handler in
    enumerate(logger_.handlers)].  The loop variable is called [handler] as the
    parameter is, so inside the loop the parameter is out of reach and the
    test [handler is handler] compares the loop variable with itself. *)
Fixpoint remove_handler_loop (i : nat) (handler : Ref) (rest all : list Ref)
    : list Ref :=
  match rest with
  | [] => all
  | handler :: rest' =>
      if bool_decide (handler = handler)
      then pop i all
      else remove_handler_loop (S i) handler rest' all
  end.

(** [_logging_remove_handler(handler, logger_)], on the Metal logger. *)
Definition _logging_remove_handler (handler : Ref) : M unit :=
  let* l := get_handlers in
  set_handlers (remove_handler_loop 0 handler l l).

(** [closeEvent(event)] *)
Definition closeEvent (event : Ref) : M unit :=
  try_finally
    (try_except is_Exception
       (let* h := attr "_log_handler" _log_handler in
        _logging_remove_handler h)
       (fun e => call (print ("Error while closing main gui window: " +:+ exn_str e))))
    (call (super_closeEvent event)).

(** The property [OBJECTS]. *)
Definition OBJECTS (w : Window) : option Ref := _OBJECTS w.

(** The property [DEFAULT_OPTIONS]. *)
Definition DEFAULT_OPTIONS (w : Window) : option Ref := _DEFAULT_OPTIONS w.

(** The [try] statement inside [re_draw]: the drawing of the objects, an
    [Exception] of which is logged as an error with its stack trace. *)
Definition re_draw_try : M unit :=
  try_except is_Exception
    (let* w := get_win in
     let* ax := attr "ax_draw" ax_draw in
     call (draw_all_objects (OBJECTS w) ax re_draw_func))
    (fun e => call (logger_error (nl +:+ nl +:+ format_exc E e))).

(** [re_draw], under the decorator. *)
Definition re_draw_body : M unit :=
  call (logger_debug "Redrawing") >>
  let* fw := attr "fig_window" fig_window in
  call (setStatusTip fw "Redrawing") >>
  let* fd := attr "fig_draw" fig_draw in
  call (canvas_hide fd) >>
  let* ax := attr "ax_draw" ax_draw in
  call (clear_me ax) >>
  re_draw_try >>
  let* ax := attr "ax_draw" ax_draw in
  call (plot_simple_gui_style ax) >>
  let* fd := attr "fig_draw" fig_draw in
  call (canvas_show fd) >>
  let* fd := attr "fig_draw" fig_draw in
  call (canvas_draw fd) >>
  let* fw := attr "fig_window" fig_window in
  call (setStatusTip fw "Redrawing:DONE").

Definition re_draw : M unit := catch_exception_slot_pyqt re_draw_body.

(** [refresh_tree] *)
Definition refresh_tree_body : M unit :=
  let* t := attr "tree" tree in
  call (rebuild (tree_widget t)).

Definition refresh_tree : M unit := catch_exception_slot_pyqt refresh_tree_body.

(** [refresh_tree_default_options] *)
Definition refresh_tree_default_options_body : M unit :=
  let* t := attr "tree_def_ops" tree_def_ops in
  call (rebuild (tree_widget t)).

Definition refresh_tree_default_options : M unit :=
  catch_exception_slot_pyqt refresh_tree_default_options_body.

(** [refresh_all] *)
Definition refresh_all_body : M unit :=
  re_draw >>
  refresh_tree >>
  refresh_tree_default_options >>
  let* t := attr "tree_circ_ops" tree_circ_ops in
  call (rebuild (tree_widget t)).

Definition refresh_all : M unit := catch_exception_slot_pyqt refresh_all_body.

(** [remake_all] *)
Definition remake_all_body : M unit :=
  call (logger_info "Remaking all Metal objects from options") >>
  let* w := get_win in
  call (make_all_objects (circ w)) >>
  re_draw.

Definition remake_all : M unit := catch_exception_slot_pyqt remake_all_body.

(** [draw_connectors] *)
Definition draw_connectors_body : M unit :=
  let* w := get_win in
  let* ax := attr "ax_draw" ax_draw in
  call (plot_connectors (circ w) ax) >>
  let* fd := attr "fig_draw" fig_draw in
  call (canvas_draw fd).

Definition draw_connectors : M unit :=
  catch_exception_slot_pyqt draw_connectors_body.

(** [set_OBJECTS(OBJECTS)] *)
Definition set_OBJECTS (OBJECTS : option Ref) : M unit :=
  let* w := get_win in
  let OBJECTS := match OBJECTS with
                 | None => circ_OBJECTS (circ w)
                 | Some o => Some o
                 end in
  assign (with_OBJECTS OBJECTS) >>
  let* w := get_win in
  match tree w with
  | Some t => call (change_content_dict (tree_widget t) OBJECTS)
  | None => ret tt
  end.

(** [set_DEFAULT_OPTIONS(DEFAULT_OPTIONS)] *)
Definition set_DEFAULT_OPTIONS (DEFAULT_OPTIONS : option Ref) : M unit :=
  let* DEFAULT_OPTIONS :=
    (match DEFAULT_OPTIONS with
     | None => call import_DEFAULT_OPTIONS
     | Some d => ret (Some d)
     end) in
  assign (with_DEFAULT_OPTIONS DEFAULT_OPTIONS) >>
  let* w := get_win in
  match tree_def_ops w with
  | Some t => call (change_content_dict (tree_widget t) (_DEFAULT_OPTIONS w))
  | None => ret tt
  end.

(** [clear_all_objects] *)
Definition clear_all_objects_body : M unit :=
  let* ret_ := call (QMessageBox_question ""
                       "Are you sure you want to clear all Metal objects?") in
  match ret_ with
  | Yes =>
      let* w := get_win in
      call (circ_clear_all_objects (circ w)) >>
      refresh_all
  | _ => ret tt
  end.

Definition clear_all_objects : M unit :=
  catch_exception_slot_pyqt clear_all_objects_body.

(** [action_gds_export] *)
Definition action_gds_export_body : M unit :=
  let* filename := call (getSaveFileName "Select locaiton to export GDS file to") in
  match filename with
  | EmptyString => ret tt
  | _ =>
      let* w := get_win in
      call (gds_draw_all (circ w) filename)
  end.

Definition action_gds_export : M unit :=
  catch_exception_slot_pyqt action_gds_export_body.

(** [action_save_metal] *)
Definition action_save_metal_body : M unit :=
  let* filename :=
    call (getSaveFileName "Select locaiton to save Metal objects and circ to") in
  match filename with
  | EmptyString => ret tt
  | _ =>
      let* w := get_win in
      call (save_metal filename (circ w)) >>
      call (logger_info ("Successfully save metal to " +:+ filename))
  end.

Definition action_save_metal : M unit :=
  catch_exception_slot_pyqt action_save_metal_body.

(** [change_circ(circ)] *)
Definition change_circ (c : Circ) : M unit :=
  assign (with_circ c) >>
  let* w := get_win in
  set_OBJECTS (circ_OBJECTS (circ w)) >>
  let* t := attr "tree_circ_ops" tree_circ_ops in
  let* w := get_win in
  call (change_content_dict (tree_widget t) (circ_params (circ w))) >>
  call (logger_info "Changed circuit, updated default dictionaries, etc.") >>
  refresh_all.

(** [action_open_metal] *)
Definition action_open_metal_body : M unit :=
  let* filename :=
    call (getOpenFileName "Select locaiton to save Metal objects and circ to") in
  match filename with
  | EmptyString => ret tt
  | _ =>
      let* c := call (load_metal filename) in
      change_circ c >>
      call (logger_info ("Successfully loaded file" +:+ nl +:+ " file=" +:+ filename))
  end.

Definition action_open_metal : M unit :=
  catch_exception_slot_pyqt action_open_metal_body.

(** The inner function [create_metal_obj] of [add_metal_object], with the
    [metal_class] it closes over. *)
Definition create_metal_obj (metal_class : MetalClass) : M unit :=
  let* form := call (Dialog_create_metal metal_class) in
  let* params := call (get_params form) in
  match params with
  | (result, my_args) =>
      if result then
        match arg_name my_args with
        | EmptyString => ret tt
        | _ =>
            let* w := get_win in
            call (new_metal_object metal_class (circ w) (arg_name my_args)
                    (arg_options my_args)) >>
            refresh_all
        end
      else ret tt
  end.

Definition run_callback (cb : Callback) : M unit :=
  match cb with
  | create_metal_obj_closure metal_class => create_metal_obj metal_class
  end.

(** [Path(img)]: [pathlib] refuses [None]. *)
Definition Path_of (img : option Path) : M Path :=
  match img with
  | Some p => ret p
  | None => raise (mkExn TypeError
              "expected str, bytes or os.PathLike object, not NoneType")
  end.

(** [str(img)] inside an f-string. *)
Definition str_of_img (img : option Path) : string :=
  match img with
  | Some p => p
  | None => "None"
  end.

(** [add_metal_object(toolbar, metal_class_name, tool_name=None)]; the two
    [return False] inside the handlers are the [None] results below. *)
Definition add_metal_object (toolbar : Ref) (metal_class_name : string)
    (tool_name : option string) : M bool :=
  let class_name := List.last (split_on "."%char metal_class_name) EmptyString in
  let* module :=
    try_except is_ImportError
      (let* m := call (import_module metal_class_name) in ret (Some m))
      (fun error =>
         call (logger_error
                 ("add_metal_object: Could not load object module for the toolbar."
                  +:+ nl +:+ " Failed to load " +:+ metal_class_name +:+ nl
                  +:+ " Please check the name path and that the file does not have errors. "
                  +:+ nl +:+ "Error (" +:+ exn_str error +:+ "): " +:+ nl
                  +:+ repr_exc_info E error)) >>
         ret None) in
  match module with
  | None => ret false
  | Some module =>
      let* found :=
        try_except is_Exception
          (let* c := call (getattr_module module class_name) in ret (Some c))
          (fun error =>
             call (logger_error
                     ("add_metal_object: Loaded module " +:+ class_name
                      +:+ " but could not find/load class " +:+ class_name +:+ nl
                      +:+ "Error (" +:+ exn_str error +:+ "): " +:+ nl
                      +:+ repr_exc_info E error)) >>
             ret None) in
      match found with
      | None => ret false
      | Some metal_class =>
          let tool_name := match tool_name with
                           | Some (String a r) => String a r
                           | _ => class_name
                           end in
          let label := toolbar_label tool_name in
          let* img :=
            (match class__img metal_class with
             | Some i =>
                 let* ip := attr "imgs_path" imgs_path in
                 ret (Some (path_join ip i))
             | None => ret None
             end) in
          let* p := Path_of img in
          let* found_img := call (is_file p) in
          let* img :=
            (if found_img then ret p
             else
               let* ip := attr "imgs_path" imgs_path in
               let img2 := path_join ip "Metal_Object.png" in
               call (logger_warning ("Could not locate  image path " +:+ str_of_img img)) >>
               let* found_img2 := call (is_file img2) in
               if found_img2
               then call (logger_warning ("Replacing with  image path " +:+ img2)) >>
                    ret img2
               else call (logger_warning
                            ("Could not even find base image path " +:+ img2)) >>
                    ret p) in
          call (add_toolbar_icon toolbar tool_name img
                  (create_metal_obj_closure metal_class) label) >>
          assign (with_created ("create_" +:+ tool_name)
                    (create_metal_obj_closure metal_class)) >>
          ret true
      end
  end.

(** The slots of the window that carry the decorator. *)
Inductive UICallback :=
| cb_re_draw
| cb_refresh_tree
| cb_refresh_tree_default_options
| cb_refresh_all
| cb_remake_all
| cb_draw_connectors
| cb_clear_all_objects
| cb_action_gds_export
| cb_action_save_metal
| cb_action_open_metal.

Definition callback_body (cb : UICallback) : M unit :=
  match cb with
  | cb_re_draw => re_draw_body
  | cb_refresh_tree => refresh_tree_body
  | cb_refresh_tree_default_options => refresh_tree_default_options_body
  | cb_refresh_all => refresh_all_body
  | cb_remake_all => remake_all_body
  | cb_draw_connectors => draw_connectors_body
  | cb_clear_all_objects => clear_all_objects_body
  | cb_action_gds_export => action_gds_export_body
  | cb_action_save_metal => action_save_metal_body
  | cb_action_open_metal => action_open_metal_body
  end.

Definition ui_callback (cb : UICallback) : M unit :=
  match cb with
  | cb_re_draw => re_draw
  | cb_refresh_tree => refresh_tree
  | cb_refresh_tree_default_options => refresh_tree_default_options
  | cb_refresh_all => refresh_all
  | cb_remake_all => remake_all
  | cb_draw_connectors => draw_connectors
  | cb_clear_all_objects => clear_all_objects
  | cb_action_gds_export => action_gds_export
  | cb_action_save_metal => action_save_metal
  | cb_action_open_metal => action_open_metal
  end.

(** The refresh operations among them. *)
Inductive RefreshOp :=
| op_re_draw
| op_refresh_tree
| op_refresh_tree_default_options
| op_refresh_all.

Definition refresh_op (op : RefreshOp) : M unit :=
  match op with
  | op_re_draw => re_draw
  | op_refresh_tree => refresh_tree
  | op_refresh_tree_default_options => refresh_tree_default_options
  | op_refresh_all => refresh_all
  end.

(** The effects of a run of events on the mappings, oldest first. *)
Definition apply_effects (evs : list Event) (st : Store) : Store :=
  fold_left (fun st ev => effect E (ev_call ev) (ev_outcome ev) st) evs st.

(** A state after further completed calls and nothing else. *)
Definition extend (s : World) (evs : list Event) : World :=
  mkWorld (win s) (trace s ++ evs) (apply_effects evs (store s))
    (handlers s) (sys_excepthook s).

End Metal_gui.

(** ** Reading the trace *)

(** Calls that present something: logging, the drawing canvas, the tree
    widgets, the log panel. *)
Definition display_call {R} (c : Call R) : bool :=
  match c with
  | logger_debug _ | logger_info _ | logger_warning _ | logger_error _
  | setStatusTip _ _ | canvas_hide _ | canvas_show _ | canvas_draw _
  | clear_me _ | draw_all_objects _ _ _ | plot_simple_gui_style _
  | rebuild _ | log_panel_stack_trace _ => true
  | _ => false
  end.

(** A call of a refresh of window [w]: a display call, and when it is the
    drawing of the objects, it is handed the window's own [OBJECTS] reference
    and [re_draw_func]. *)
Definition refresh_call (w : Window) {R} (c : Call R) : Prop :=
  match c with
  | draw_all_objects o _ f => o = OBJECTS w /\ f = re_draw_func
  | c => display_call c = true
  end.

Definition refresh_event (w : Window) (ev : Event) : Prop :=
  refresh_call w (ev_call ev).

(** Running [m] from [s] only adds refresh events: the window's attributes,
    the logger's handlers and the exception hook are as before. *)
Definition displays_at (E : Env) {A} (m : M A) (s : World) : Prop :=
  exists evs, snd (m s) = extend E s evs /\ Forall (refresh_event (win s)) evs.

(** Running [m] keeps the history and may add to it. *)
Definition grows {A} (m : M A) : Prop :=
  forall s, exists rest, trace (snd (m s)) = trace s ++ rest.

(** Running [m] leaves every attribute of the window as it was. *)
Definition keeps_win {A} (m : M A) : Prop :=
  forall s, win (snd (m s)) = win s.

(** The state once [change_circ(c)] has done its assignments: the window
    holds [c] and points at [c.OBJECTS]. *)
Definition repointed (c : Circ) (s : World) : World :=
  mkWorld (with_OBJECTS (circ_OBJECTS c) (with_circ c (win s)))
    (trace s) (store s) (handlers s) (sys_excepthook s).

(** The display collaborators keep their contract: they read the mappings
    and leave them as they are. *)
Definition display_is_read_only (E : Env) : Prop :=
  forall R (c : Call R) (o : Outcome R) (st : Store),
    display_call c = true -> effect E c o st = st.

(** The circuit a completed [save_metal(filename, c)] event wrote. *)
Definition saved_by (filename : string) (ev : Event) : option Circ :=
  match ev_call ev, ev_outcome ev with
  | save_metal f c, Returns _ => if String.eqb f filename then Some c else None
  | _, _ => None
  end.

(** The circuit last saved under [filename] in a history. *)
Fixpoint last_saved (filename : string) (h : list Event) : option Circ :=
  match h with
  | [] => None
  | ev :: h' =>
      match last_saved filename h' with
      | Some c => Some c
      | None => saved_by filename ev
      end
  end.

(** The contract of the two persistence functions: [load_metal(f)] returns
    what [save_metal(f, c)] last saved. *)
Definition load_returns_saved (E : Env) (filename : string) : Prop :=
  forall (h : list Event) (c : Circ),
    last_saved filename h = Some c ->
    oracle E h (load_metal filename) = Returns c.

(** [call] returns [r] in state [s]. *)
Definition answers (E : Env) {R} (s : World) (c : Call R) (r : R) : Prop :=
  oracle E (trace s) c = Returns r.

(** What the claim about [_logging_remove_handler] asks for: the first
    occurrence of [handler] leaves the list, the others stay. *)
Fixpoint remove_own_handler (handler : Ref) (l : list Ref) : list Ref :=
  match l with
  | [] => []
  | h :: t => if bool_decide (h = handler) then t else h :: remove_own_handler handler t
  end.

(** ** Concrete environments and windows, for running the model *)

Definition demo_circ : Circ := mkCirc 1 (Some 2) (Some 3).
Definition other_circ : Circ := mkCirc 11 (Some 12) (Some 13).
Definition demo_class : MetalClass := mkClass 40 (Some "Metal_Qubit.png").
Definition class_without_img : MetalClass := mkClass 41 None.

(** A collaborator that returns, with the plainest value of its type. *)
Definition plain_answer {R} (c : Call R) : R :=
  match c in Call R return R with
  | logger_debug _ | logger_info _ | logger_warning _ | logger_error _ => tt
  | setStatusTip _ _ | canvas_hide _ | canvas_show _ | canvas_draw _ => tt
  | clear_me _ | draw_all_objects _ _ _ | plot_simple_gui_style _ => tt
  | rebuild _ | change_content_dict _ _ => tt
  | make_all_objects _ | circ_clear_all_objects _ => tt
  | plot_connectors _ _ | gds_draw_all _ _ => tt
  | save_metal _ _ => tt
  | load_metal _ => other_circ
  | QMessageBox_question _ _ => No
  | getSaveFileName _ => EmptyString
  | getOpenFileName _ => EmptyString
  | Dialog_create_metal _ => 50
  | get_params _ => (false, mkArgs EmptyString None)
  | new_metal_object _ _ _ _ => tt
  | import_module _ => 60
  | getattr_module _ _ => demo_class
  | is_file _ => true
  | add_toolbar_icon _ _ _ _ _ => tt
  | Logging_Window_Widget _ => 70
  | add_logger _ _ => tt
  | Logging_Hander_for_Log_Widget _ => 71
  | QDockWidget _ => 72
  | dock_setWidget _ _ | dock_setFloating _ _ => tt
  | dock_toggleViewAction _ => 73
  | menu_addAction _ _ | addDockWidget _ _ | dock_setMinimumWidth _ _ => tt
  | tabifyDockWidget _ _ => tt
  | import_DEFAULT_OPTIONS => Some 4
  | log_message_to _ _ _ | print_exception _ | print _ => tt
  | super_closeEvent _ => tt
  | log_panel_stack_trace _ => tt
  end.

(** The circuit's own methods rewrite the circuit's mapping; everything else
    leaves the mappings alone. *)
Definition demo_effect R (c : Call R) (o : Outcome R) (st : Store) : Store :=
  match c, o with
  | make_all_objects c, Returns _ =>
      match circ_OBJECTS c with
      | Some r => <[r := {["Q1" := 100]}]> st
      | None => st
      end
  | circ_clear_all_objects c, Returns _ =>
      match circ_OBJECTS c with
      | Some r => <[r := ∅]> st
      | None => st
      end
  | _, _ => st
  end.

Definition demo_format_exc (e : Exn) : string :=
  "Traceback (most recent call last):" +:+ nl +:+ exn_str e.

Definition demo_format_exception (t : ExcTriple) : list string :=
  ["Traceback (most recent call last):"] ++ et_tb t ++ [et_type t +:+ ": " +:+ et_value t].

Definition env_of (o : forall R, list Event -> Call R -> Outcome R) : Env :=
  mkEnv o demo_effect demo_format_exc demo_format_exception exn_str.

(** Every collaborator returns; the user cancels every dialog. *)
Definition quiet_env : Env := env_of (fun R _ c => Returns (plain_answer c)).

(** The user confirms, names a file and a new object; persistence keeps its
    contract. *)
Definition user_env : Env :=
  env_of (fun R h c =>
    match c in Call R return Outcome R with
    | QMessageBox_question _ _ => Returns Yes
    | getSaveFileName _ => Returns "chip.metal"
    | getOpenFileName _ => Returns "chip.metal"
    | get_params _ => Returns (true, mkArgs "Q1" (Some 5))
    | load_metal f =>
        match last_saved f h with
        | Some c => Returns c
        | None => Returns other_circ
        end
    | c' => Returns (plain_answer c')
    end).

(** The drawing of the objects fails. *)
Definition failing_draw_env : Env :=
  env_of (fun R _ c =>
    match c in Call R return Outcome R with
    | draw_all_objects _ _ _ => Raises (mkExn (OtherException "ValueError") "bad polygon")
    | plot_simple_gui_style _ => Raises (mkExn KeyboardInterrupt "")
    | c' => Returns (plain_answer c')
    end).

(** The module of the class does not import. *)
Definition no_module_env : Env :=
  env_of (fun R _ c =>
    match c in Call R return Outcome R with
    | import_module n => Raises (mkExn ModuleNotFoundError ("No module named '" +:+ n +:+ "'"))
    | c' => Returns (plain_answer c')
    end).

(** The module imports and holds a class that has no [_img] attribute. *)
Definition no_img_env : Env :=
  env_of (fun R _ c =>
    match c in Call R return Outcome R with
    | getattr_module _ _ => Returns class_without_img
    | c' => Returns (plain_answer c')
    end).

(** A window after set-up, with every widget in place. *)
Definition demo_window : Window :=
  mkWindow demo_circ (Some 2) (Some 4) (Some "_imgs") (Some 20) (Some 21)
    (Some 22) (Some 23) (Some (mkTree 30 (Some 31))) (Some (mkTree 32 (Some 33)))
    (Some (mkTree 34 (Some 35))) (Some 70) (Some 71) (Some window_excepthook)
    (Some 72) ∅.

(** The window just before [_setup_logging] runs. *)
Definition window_before_logging : Window :=
  mkWindow demo_circ (Some 2) (Some 4) (Some "_imgs") (Some 20) (Some 21)
    (Some 22) (Some 23) (Some (mkTree 30 (Some 31))) (Some (mkTree 32 (Some 33)))
    (Some (mkTree 34 (Some 35))) None None None None ∅.

Definition demo_store : Store := {[ 2 := {["Q1" := 100]} ; 4 := ∅ ]}.

(** The Metal logger already holds the console handler [7] of the package
    when the window registers its own handler [71]. *)
Definition demo_world : World :=
  mkWorld demo_window [] demo_store [7; 71] window_excepthook.

Definition world_before_logging : World :=
  mkWorld window_before_logging [] demo_store [7] interpreter_excepthook.

(** ** More of the window: the loop over the classes, and text helpers *)

Section Create_objects.

Context (E : Env).

(** The loop that ends [_setup_create_objects]: [for metal_class in
    CREATE_METAL_CLASSES: self.add_metal_object(toolbar, metal_class)], on the
    toolbar the lines before it create; the list comes from the package's
    configuration.  What [add_metal_object] returns is dropped. *)
Fixpoint create_buttons (toolbar : Ref) (CREATE_METAL_CLASSES : list string)
    : M unit :=
  match CREATE_METAL_CLASSES with
  | [] => ret tt
  | metal_class :: rest =>
      add_metal_object E toolbar metal_class None >>
      create_buttons toolbar rest
  end.

End Create_objects.

(** [c in s] for a character. *)
Fixpoint occurs (c : Ascii.ascii) (s : string) : bool :=
  match s with
  | EmptyString => false
  | String a r => if Ascii.eqb a c then true else occurs c r
  end.

(** The label of [add_metal_object] before a line break is put in: the
    underscores replaced, a leading 'Metal ' dropped. *)
Definition plain_label (tool_name : string) : string :=
  let label := replace_char "_"%char " "%char tool_name in
  if String.prefix "Metal " label then str_from 6 label else label.

(** The window's circuit after an assignment of [_OBJECTS]: what
    [set_OBJECTS] stores for its argument. *)
Definition resolved_OBJECTS (o : option Ref) (w : Window) : option Ref :=
  match o with
  | None => circ_OBJECTS (circ w)
  | Some r => Some r
  end.

(** A state whose window has been replaced. *)
Definition with_window (w : Window) (s : World) : World :=
  mkWorld w (trace s) (store s) (handlers s) (sys_excepthook s).

(** The user accepts the creation dialog, but the class's constructor fails. *)
Definition failing_constructor_env : Env :=
  env_of (fun R _ c =>
    match c in Call R return Outcome R with
    | get_params _ => Returns (true, mkArgs "Q1" (Some 5))
    | new_metal_object _ _ _ _ =>
        Raises (mkExn (OtherException "ValueError") "bad options")
    | c' => Returns (plain_answer c')
    end).

(** The user names a file, but the persistence functions fail. *)
Definition failing_persistence_env : Env :=
  env_of (fun R _ c =>
    match c in Call R return Outcome R with
    | getSaveFileName _ => Returns "chip.metal"
    | getOpenFileName _ => Returns "chip.metal"
    | save_metal _ _ => Raises (mkExn (OtherException "OSError") "disk full")
    | load_metal _ => Raises (mkExn (OtherException "UnpicklingError") "bad file")
    | c' => Returns (plain_answer c')
    end).

(** The tree widgets refuse a new dictionary. *)
Definition failing_tree_env : Env :=
  env_of (fun R _ c =>
    match c in Call R return Outcome R with
    | change_content_dict _ _ =>
        Raises (mkExn (OtherException "RuntimeError") "tree deleted")
    | import_DEFAULT_OPTIONS => Raises (mkExn ImportError "cannot import name")
    | c' => Returns (plain_answer c')
    end).

(** The log panel cannot be written to. *)
Definition failing_log_panel_env : Env :=
  env_of (fun R _ c =>
    match c in Call R return Outcome R with
    | log_message_to _ _ _ =>
        Raises (mkExn (OtherException "RuntimeError") "widget deleted")
    | c' => Returns (plain_answer c')
    end).

(** Before [_setup_logging], with a Metal logger that has no handler yet. *)
Definition world_with_bare_logger : World :=
  mkWorld window_before_logging [] demo_store [] interpreter_excepthook.

(** * Properties *)

(** ** Extending a state by events *)

Section Frame.

Context (E : Env).

Lemma extend_nil s : extend E s [] = s.
Proof.
  destruct s; unfold extend; simpl. by rewrite app_nil_r.
Qed.

Lemma apply_effects_app a b st :
  apply_effects E (a ++ b) st = apply_effects E b (apply_effects E a st).
Proof. unfold apply_effects. by rewrite fold_left_app. Qed.

Lemma extend_extend s a b : extend E (extend E s a) b = extend E s (a ++ b).
Proof.
  unfold extend; simpl. by rewrite apply_effects_app, app_assoc.
Qed.

Lemma record_extend {R} (c : Call R) o s : record E c o s = extend E s [Ev c o].
Proof. reflexivity. Qed.

Lemma apply_effects_read_only evs st :
  display_is_read_only E ->
  Forall (fun ev => display_call (ev_call ev) = true) evs ->
  apply_effects E evs st = st.
Proof.
  intros HE Hall. revert st.
  induction Hall as [|ev evs Hev _ IH]; intros st; [done|].
  unfold apply_effects in *; simpl. rewrite (HE _ _ _ _ Hev). apply IH.
Qed.

Lemma refresh_call_display w {R} (c : Call R) :
  refresh_call w c -> display_call c = true.
Proof. destruct c; simpl; try done. Qed.

(** *** The statements of the monad only add events *)

Lemma displays_ret {A} (a : A) s : displays_at E (ret a) s.
Proof. exists []. by rewrite extend_nil. Qed.

Lemma displays_raise {A} e s : displays_at E (@raise A e) s.
Proof. exists []. by rewrite extend_nil. Qed.

Lemma displays_attr {A} name (f : Window -> option A) s :
  displays_at E (attr name f) s.
Proof.
  exists []. rewrite extend_nil. unfold attr. by destruct (f (win s)).
Qed.

Lemma displays_get_win s : displays_at E get_win s.
Proof. exists []. by rewrite extend_nil. Qed.

Lemma displays_call {R} (c : Call R) s :
  refresh_call (win s) c -> displays_at E (call E c) s.
Proof.
  intros Hc. unfold displays_at, call.
  destruct (oracle E (trace s) c) as [r|e].
  - exists [Ev c (Returns r)]. split; [done|]. by constructor.
  - exists [Ev c (Raises e)]. split; [done|]. by constructor.
Qed.

Lemma displays_bind {A B} (m : M A) (k : A -> M B) s :
  displays_at E m s ->
  (forall a s1, m s = (Ok a, s1) -> win s1 = win s -> displays_at E (k a) s1) ->
  displays_at E (bind m k) s.
Proof.
  intros (evs & Hs & Hall) Hk. unfold displays_at, bind in *.
  destruct (m s) as [[a|e] s1] eqn:Hm; simpl in Hs; subst s1.
  - destruct (Hk a _ eq_refl eq_refl) as (evs2 & Hs2 & Hall2).
    exists (evs ++ evs2). rewrite Hs2, extend_extend. split; [done|].
    apply Forall_app. by split.
  - by exists evs.
Qed.

Lemma displays_try_except {A} catches (body : M A) handler s :
  displays_at E body s ->
  (forall e s1, body s = (Err e, s1) -> win s1 = win s ->
     displays_at E (handler e) s1) ->
  displays_at E (try_except catches body handler) s.
Proof.
  intros (evs & Hs & Hall) Hh. unfold displays_at, try_except in *.
  destruct (body s) as [[a|e] s1] eqn:Hb; simpl in Hs; subst s1.
  - by exists evs.
  - destruct (catches (exn_class e)); [|by exists evs].
    destruct (Hh e _ eq_refl eq_refl) as (evs2 & Hs2 & Hall2).
    exists (evs ++ evs2). rewrite Hs2, extend_extend. split; [done|].
    apply Forall_app. by split.
Qed.

Lemma displays_catch (body : M unit) s :
  displays_at E body s ->
  displays_at E (catch_exception_slot_pyqt E body) s.
Proof.
  intros (evs & Hs & Hall). unfold displays_at, catch_exception_slot_pyqt in *.
  destruct (body s) as [[a|e] s1] eqn:Hb; simpl in Hs; subst s1.
  - by exists evs.
  - exists (evs ++ [Ev (log_panel_stack_trace (format_exc E e)) (Returns tt)]).
    simpl. unfold log_stack_trace. rewrite record_extend, extend_extend.
    split; [done|]. apply Forall_app. split; [done|]. by constructor.
Qed.

Lemma catch_returns (body : M unit) s :
  fst (catch_exception_slot_pyqt E body s) = Ok tt.
Proof.
  unfold catch_exception_slot_pyqt. by destruct (body s) as [[[]|e] s1].
Qed.

End Frame.

(** ** The refresh operations only display *)

Section Refresh.

Context (E : Env).

Local Ltac seq := apply displays_bind; [|intros ? ? ? ?].
Local Ltac shown := apply displays_call; reflexivity.

Lemma re_draw_body_displays s : displays_at E (re_draw_body E) s.
Proof.
  unfold re_draw_body.
  seq; [shown|]. seq; [apply displays_attr|]. seq; [shown|].
  seq; [apply displays_attr|]. seq; [shown|].
  seq; [apply displays_attr|]. seq; [shown|].
  seq.
  { unfold re_draw_try. apply displays_try_except.
    - apply displays_bind; [apply displays_get_win|].
      intros w s' Hw _. injection Hw as <- <-.
      apply displays_bind; [apply displays_attr|].
      intros ax s' _ Hs'. apply displays_call. simpl. by rewrite Hs'.
    - intros. shown. }
  seq; [apply displays_attr|]. seq; [shown|].
  seq; [apply displays_attr|]. seq; [shown|].
  seq; [apply displays_attr|]. seq; [shown|].
  seq; [apply displays_attr|]. shown.
Qed.

Lemma re_draw_displays s : displays_at E (re_draw E) s.
Proof. apply displays_catch, re_draw_body_displays. Qed.

Lemma refresh_tree_displays s : displays_at E (refresh_tree E) s.
Proof.
  apply displays_catch. unfold refresh_tree_body.
  seq; [apply displays_attr|]. shown.
Qed.

Lemma refresh_tree_default_options_displays s :
  displays_at E (refresh_tree_default_options E) s.
Proof.
  apply displays_catch. unfold refresh_tree_default_options_body.
  seq; [apply displays_attr|]. shown.
Qed.

Lemma refresh_all_displays s : displays_at E (refresh_all E) s.
Proof.
  apply displays_catch. unfold refresh_all_body.
  seq; [apply re_draw_displays|].
  seq; [apply refresh_tree_displays|].
  seq; [apply refresh_tree_default_options_displays|].
  seq; [apply displays_attr|]. shown.
Qed.

Lemma refresh_op_displays op s : displays_at E (refresh_op E op) s.
Proof.
  destruct op; simpl.
  - apply re_draw_displays.
  - apply refresh_tree_displays.
  - apply refresh_tree_default_options_displays.
  - apply refresh_all_displays.
Qed.

(** What a run that only displays leaves in place. *)
Lemma displays_at_frame {A} (m : M A) s :
  displays_at E m s ->
  win (snd (m s)) = win s /\
  handlers (snd (m s)) = handlers s /\
  sys_excepthook (snd (m s)) = sys_excepthook s /\
  (display_is_read_only E -> store (snd (m s)) = store s).
Proof.
  intros (evs & -> & Hall). repeat split; try done.
  intros HE. simpl. apply apply_effects_read_only; [done|].
  eapply Forall_impl; [exact Hall|]. intros ev. apply refresh_call_display.
Qed.

Lemma refresh_all_win s : win (snd (refresh_all E s)) = win s.
Proof. apply displays_at_frame, refresh_all_displays. Qed.

End Refresh.

(** ** The callback boundary *)

(** C1: every decorated slot of the window ([re_draw], [refresh_tree],
    [refresh_tree_default_options], [refresh_all], [remake_all],
    [draw_connectors], [clear_all_objects], [action_gds_export],
    [action_save_metal], [action_open_metal]) is its body under
    [catch_exception_slot_pyqt]; it returns normally in every state and
    environment; whenever its body raises an exception [e], the slot still
    returns, and the last thing it did is to write the stack trace of [e] to
    the log panel; when the body returns, the slot adds nothing. *)
Theorem ui_callback_catches_and_logs (E : Env) (cb : UICallback) (s : World) :
  ui_callback E cb = catch_exception_slot_pyqt E (callback_body E cb) /\
  fst (ui_callback E cb s) = Ok tt /\
  (forall e s1, callback_body E cb s = (Err e, s1) ->
     ui_callback E cb s = (Ok tt, log_stack_trace E e s1) /\
     last (trace (snd (ui_callback E cb s)))
       = Some (Ev (log_panel_stack_trace (format_exc E e)) (Returns tt))) /\
  (forall s1, callback_body E cb s = (Ok tt, s1) -> ui_callback E cb s = (Ok tt, s1)).
Proof.
  assert (Hdef : ui_callback E cb = catch_exception_slot_pyqt E (callback_body E cb))
    by (by destruct cb).
  split; [exact Hdef|]. rewrite Hdef. split; [apply catch_returns|].
  unfold catch_exception_slot_pyqt. split.
  - intros e s1 ->. split; [done|]. simpl. apply last_snoc.
  - by intros s1 ->.
Qed.

(** A run of C1: the style pass of [re_draw] is interrupted; the slot returns
    and the log panel holds the stack trace. *)
Lemma ui_callback_catches_and_logs_witness :
  ui_callback failing_draw_env cb_re_draw demo_world
    = (Ok tt,
       log_stack_trace failing_draw_env (mkExn KeyboardInterrupt "")
         (snd (callback_body failing_draw_env cb_re_draw demo_world))).
Proof.
  destruct (ui_callback_catches_and_logs failing_draw_env cb_re_draw demo_world)
    as (_ & _ & Hraise & _).
  apply Hraise. vm_compute. reflexivity.
Defined.

(** ** Displaying without transforming *)

(** C6: each refresh operation ([re_draw], [refresh_tree],
    [refresh_tree_default_options], [refresh_all]) returns and leaves the
    window's circuit reference, its [OBJECTS] and [DEFAULT_OPTIONS] references
    and every other attribute as they were; all it adds to the trace are
    display calls, the drawing being handed the window's own [OBJECTS]
    reference and the identity [re_draw_func]; so, the display collaborators
    being read-only, the contents of every mapping are unchanged.  The getters
    return the very reference that was set. *)
Theorem refresh_displays_without_transforming (E : Env) (op : RefreshOp) (s : World) :
  let s' := snd (refresh_op E op s) in
  fst (refresh_op E op s) = Ok tt /\
  circ (win s') = circ (win s) /\
  OBJECTS (win s') = OBJECTS (win s) /\
  DEFAULT_OPTIONS (win s') = DEFAULT_OPTIONS (win s) /\
  win s' = win s /\
  (exists evs, trace s' = trace s ++ evs /\ Forall (refresh_event (win s)) evs) /\
  (display_is_read_only E -> store s' = store s) /\
  (forall o s0, OBJECTS (win (snd (set_OBJECTS E (Some o) s0))) = Some o) /\
  (forall s0, OBJECTS (win (snd (set_OBJECTS E None s0))) = circ_OBJECTS (circ (win s0))) /\
  (forall d s0,
     DEFAULT_OPTIONS (win (snd (set_DEFAULT_OPTIONS E (Some d) s0))) = Some d) /\
  (forall x, re_draw_func x = x).
Proof.
  intros s'.
  destruct (displays_at_frame E _ s (refresh_op_displays E op s))
    as (Hwin & _ & _ & Hstore).
  destruct (refresh_op_displays E op s) as (evs & Hs' & Hevs).
  fold s' in Hwin, Hstore, Hs'.
  split; [destruct op; apply catch_returns|].
  rewrite Hwin. do 4 (split; [done|]).
  split; [exists evs; by rewrite Hs'|].
  split; [done|].
  split; [|split; [|split; [|done]]].
  - intros o s0. unfold set_OBJECTS, bind, get_win, assign; simpl.
    destruct (tree (win s0)); [|done]. unfold call.
    by destruct (oracle E _ _).
  - intros s0. unfold set_OBJECTS, bind, get_win, assign; simpl.
    destruct (tree (win s0)); [|done]. unfold call.
    by destruct (oracle E _ _).
  - intros d s0. unfold set_DEFAULT_OPTIONS, bind, get_win, assign, ret; simpl.
    destruct (tree_def_ops (win s0)); [|done]. unfold call.
    by destruct (oracle E _ _).
Qed.

Lemma quiet_env_display_is_read_only : display_is_read_only quiet_env.
Proof. intros R c o st Hc. by destruct c. Qed.

(** A run of C6: refreshing everything in the demo window leaves the stored
    mappings as they were. *)
Lemma refresh_displays_without_transforming_witness :
  store (snd (refresh_op quiet_env op_refresh_all demo_world)) = store demo_world.
Proof.
  apply (refresh_displays_without_transforming quiet_env op_refresh_all demo_world).
  exact quiet_env_display_is_read_only.
Defined.

(** ** Following a run that returned *)

Section Returned.

Context (E : Env).

Lemma bind_Ok {A B} (m : M A) (k : A -> M B) s b s' :
  bind m k s = (Ok b, s') ->
  exists a s1, m s = (Ok a, s1) /\ k a s1 = (Ok b, s').
Proof.
  unfold bind. destruct (m s) as [[a|e] s1]; [eauto|discriminate].
Qed.

Lemma call_Ok {R} (c : Call R) s r s' :
  call E c s = (Ok r, s') ->
  answers E s c r /\ s' = record E c (Returns r) s.
Proof.
  unfold call, answers. destruct (oracle E (trace s) c); [|discriminate].
  by intros [= -> <-].
Qed.

Lemma attr_Ok {A} name (f : Window -> option A) s a s' :
  attr name f s = (Ok a, s') -> f (win s) = Some a /\ s' = s.
Proof.
  unfold attr. destruct (f (win s)); [|discriminate]. by intros [= -> <-].
Qed.

Lemma ret_Ok {A} (a b : A) s s' : ret a s = (Ok b, s') -> b = a /\ s' = s.
Proof. by intros [= -> <-]. Qed.

Lemma assign_Ok f s u s' :
  assign f s = (Ok u, s') ->
  s' = mkWorld (f (win s)) (trace s) (store s) (handlers s) (sys_excepthook s).
Proof. by intros [= <-]. Qed.

Lemma set_sys_excepthook_Ok k s u s' :
  set_sys_excepthook k s = (Ok u, s') ->
  s' = mkWorld (win s) (trace s) (store s) (handlers s) k.
Proof. by intros [= <-]. Qed.

Lemma set_handlers_Ok l s u s' :
  set_handlers l s = (Ok u, s') ->
  s' = mkWorld (win s) (trace s) (store s) l (sys_excepthook s).
Proof. by intros [= <-]. Qed.

Lemma get_handlers_Ok s l s' :
  get_handlers s = (Ok l, s') -> l = handlers s /\ s' = s.
Proof. by intros [= <- <-]. Qed.

Lemma get_win_Ok s w s' : get_win s = (Ok w, s') -> w = win s /\ s' = s.
Proof. by intros [= <- <-]. Qed.

Lemma call_answers {R} (c : Call R) s r :
  answers E s c r -> call E c s = (Ok r, record E c (Returns r) s).
Proof. unfold call, answers. by intros ->. Qed.

End Returned.

(** Hypotheses [m s = (Ok a, s')] are taken apart along the binds of [m],
    leaving what each step answered and the state it left. *)
Ltac returned :=
  repeat match goal with
  | H : bind _ _ _ = (Ok _, _) |- _ => apply bind_Ok in H as (? & ? & ? & ?)
  | H : call _ _ _ = (Ok _, _) |- _ => apply call_Ok in H as [? ->]
  | H : attr _ _ _ = (Ok _, _) |- _ => apply attr_Ok in H as [? ->]
  | H : ret _ _ = (Ok _, _) |- _ => apply ret_Ok in H as [-> ->]
  | H : assign _ _ = (Ok _, _) |- _ => apply assign_Ok in H as ->
  | H : set_sys_excepthook _ _ = (Ok _, _) |- _ =>
      apply set_sys_excepthook_Ok in H as ->
  | H : get_handlers _ = (Ok _, _) |- _ => apply get_handlers_Ok in H as [-> ->]
  | H : set_handlers _ _ = (Ok _, _) |- _ => apply set_handlers_Ok in H as ->
  | H : get_win _ = (Ok _, _) |- _ => apply get_win_Ok in H as [-> ->]
  | H : raise _ _ = (Ok _, _) |- _ => discriminate H
  end.

(** ** The exception hook *)

Section Excepthook.

Context (E : Env).

Lemma add_dock_keeps name widget location width s dock s' :
  _add_dock E name widget location width s = (Ok dock, s') ->
  win s' = win s /\ sys_excepthook s' = sys_excepthook s.
Proof.
  intros H. unfold _add_dock in H. returned.
  destruct width as [[|w]|]; returned; split; reflexivity.
Qed.

Lemma addHandler_keeps h s u s' :
  addHandler h s = (Ok u, s') ->
  win s' = win s /\ sys_excepthook s' = sys_excepthook s.
Proof.
  intros H. unfold addHandler in H. returned.
  destruct (bool_decide _); returned; split; reflexivity.
Qed.

Lemma setup_logging_sets_hook s s' :
  _setup_logging E true s = (Ok tt, s') ->
  sys_excepthook s' = window_excepthook /\
  exists lw, logger_window (win s') = Some lw.
Proof.
  intros H. unfold _setup_logging in H. returned.
  repeat match goal with
  | H : addHandler _ _ = (Ok _, _) |- _ => apply addHandler_keeps in H as [? ?]
  | H : _add_dock _ _ _ _ _ _ = (Ok _, _) |- _ => apply add_dock_keeps in H as [? ?]
  end.
  destruct (tree_dock _); returned.
  simpl.
  repeat match goal with
  | H : win _ = _ |- _ => rewrite H; clear H; simpl
  | H : sys_excepthook _ = _ |- _ => rewrite H; clear H; simpl
  end.
  eauto.
Qed.

Lemma excepthook_runs lw t s1 :
  logger_window (win s1) = Some lw ->
  run_excepthook E window_excepthook t s1 =
    (call E (log_message_to lw "Errors" (String.concat nl (format_exception E t))) >>
     call E (print_exception t)) s1.
Proof.
  intros Hlw. simpl. unfold excepthook, bind at 1, attr. by rewrite Hlw.
Qed.

End Excepthook.

(** C2: after [_setup_logging] has run with its default argument
    ([catch_exceptions=True]), [sys.excepthook] holds the window's hook, and
    the window has a log panel [lw]; called on any triple [(type, value, tb)],
    the hook first writes the lines of [traceback.format_exception] joined by
    newlines to the section 'Errors' of that panel and, that done, hands the
    triple to [traceback.print_exception]: these two calls, in this order,
    are all it does. *)
Theorem setup_logging_installs_excepthook (E : Env) (s s' : World) :
  _setup_logging E true s = (Ok tt, s') ->
  sys_excepthook s' = window_excepthook /\
  exists lw, logger_window (win s') = Some lw /\
    forall (t : ExcTriple) (s1 : World),
      logger_window (win s1) = Some lw ->
      let write := log_message_to lw "Errors"
                     (String.concat nl (format_exception E t)) in
      answers E s1 write tt ->
      exists o,
        snd (run_excepthook E (sys_excepthook s') t s1)
          = extend E s1 [Ev write (Returns tt); Ev (print_exception t) o].
Proof.
  intros H. destruct (setup_logging_sets_hook E s s' H) as (Hhook & lw & Hlw).
  split; [done|]. exists lw. split; [done|].
  intros t s1 Hlw1 write Hwrite. rewrite Hhook, (excepthook_runs E lw t s1 Hlw1).
  fold write. unfold bind. rewrite (call_answers E _ _ _ Hwrite).
  unfold call.
  destruct (oracle E (trace (record E write (Returns tt) s1)) (print_exception t)) as [[]|e].
  - exists (Returns tt). simpl. by rewrite !record_extend, extend_extend.
  - exists (Raises e). simpl. by rewrite !record_extend, extend_extend.
Qed.

(** A run of C2: the set-up of the demo window installs the hook. *)
Lemma setup_logging_installs_excepthook_witness :
  sys_excepthook (snd (_setup_logging quiet_env true world_before_logging))
    = window_excepthook.
Proof.
  apply (setup_logging_installs_excepthook quiet_env world_before_logging
           (snd (_setup_logging quiet_env true world_before_logging))).
  vm_compute. reflexivity.
Defined.

(** ** Actions: the collaborator first, the refresh after *)

Section Actions.

Context (E : Env).

Lemma bind_call_answers {R B} (c : Call R) (k : R -> M B) s r :
  answers E s c r -> bind (call E c) k s = k r (record E c (Returns r) s).
Proof. intros H. unfold bind. by rewrite (call_answers E c s r H). Qed.

Lemma bind_get_win {B} (k : Window -> M B) s : bind get_win k s = k (win s) s.
Proof. reflexivity. Qed.

Lemma slot_eta (body : M unit) s :
  catch_exception_slot_pyqt E body s
    = (Ok tt, snd (catch_exception_slot_pyqt E body s)).
Proof.
  unfold catch_exception_slot_pyqt. by destruct (body s) as [[[]|e] s1].
Qed.

(** A slot that ends with a call of another slot. *)
Lemma catch_tail (body inner : M unit) s s1 :
  body s = catch_exception_slot_pyqt E inner s1 ->
  catch_exception_slot_pyqt E body s = catch_exception_slot_pyqt E inner s1.
Proof.
  intros H. unfold catch_exception_slot_pyqt at 1. rewrite H.
  by rewrite (slot_eta inner s1).
Qed.

End Actions.

(** C3: [remake_all] calls [circ.make_all_objects()] and, that call having
    returned, goes on exactly as [re_draw] does; [clear_all_objects], the user
    having answered Yes, calls [circ.clear_all_objects()] and then goes on as
    [refresh_all] does; the creation callback, the dialog having been accepted
    with a non-empty name, constructs the object on the window's circuit with
    that name and those options and then goes on as [refresh_all] does. *)
Theorem actions_call_then_refresh (E : Env) (s : World) :
  (let info := logger_info "Remaking all Metal objects from options" in
   let make := make_all_objects (circ (win s)) in
   answers E s info tt ->
   answers E (record E info (Returns tt) s) make tt ->
   remake_all E s
     = re_draw E (record E make (Returns tt) (record E info (Returns tt) s))) /\
  (let ask := QMessageBox_question ""
                "Are you sure you want to clear all Metal objects?" in
   let clear := circ_clear_all_objects (circ (win s)) in
   answers E s ask Yes ->
   answers E (record E ask (Returns Yes) s) clear tt ->
   clear_all_objects E s
     = refresh_all E (record E clear (Returns tt) (record E ask (Returns Yes) s))) /\
  (forall metal_class form name options,
     let dialog := Dialog_create_metal metal_class in
     let params := get_params form in
     let new := new_metal_object metal_class (circ (win s)) name options in
     let s1 := record E dialog (Returns form) s in
     let s2 := record E params (Returns (true, mkArgs name options)) s1 in
     name <> EmptyString ->
     answers E s dialog form ->
     answers E s1 params (true, mkArgs name options) ->
     answers E s2 new tt ->
     create_metal_obj E metal_class s = refresh_all E (record E new (Returns tt) s2)).
Proof.
  split; [|split].
  - intros info make Hinfo Hmake. apply catch_tail.
    unfold remake_all_body. rewrite (bind_call_answers E _ _ _ _ Hinfo).
    unfold bind at 1, get_win. by rewrite (bind_call_answers E _ _ _ _ Hmake).
  - intros ask clear Hask Hclear. apply catch_tail.
    unfold clear_all_objects_body. rewrite (bind_call_answers E _ _ _ _ Hask).
    unfold bind at 1, get_win. by rewrite (bind_call_answers E _ _ _ _ Hclear).
  - intros metal_class form name options dialog params new s1 s2 Hname Hd Hp Hn.
    unfold create_metal_obj. rewrite (bind_call_answers E _ _ _ _ Hd).
    fold s1. rewrite (bind_call_answers E _ _ _ _ Hp). fold s2. simpl.
    destruct name as [|a name]; [done|].
    unfold bind at 1, get_win. by rewrite (bind_call_answers E _ _ _ _ Hn).
Qed.

(** A run of C3: the user confirms the clearing of the demo window. *)
Lemma actions_call_then_refresh_witness :
  clear_all_objects user_env demo_world
    = refresh_all user_env
        (record user_env (circ_clear_all_objects demo_circ) (Returns tt)
           (record user_env
              (QMessageBox_question ""
                 "Are you sure you want to clear all Metal objects?")
              (Returns Yes) demo_world)).
Proof.
  destruct (actions_call_then_refresh user_env demo_world) as (_ & Hclear & _).
  apply Hclear; reflexivity.
Defined.

(** ** The file actions *)

Section FileActions.

Context (E : Env).

Lemma grows_ret {A} (a : A) : grows (ret a).
Proof. intros s. exists []. simpl. by rewrite app_nil_r. Qed.

Lemma grows_attr {A} name (f : Window -> option A) : grows (attr name f).
Proof.
  intros s. exists []. unfold attr. destruct (f (win s)); simpl; by rewrite app_nil_r.
Qed.

Lemma grows_get_win : grows get_win.
Proof. intros s. exists []. simpl. by rewrite app_nil_r. Qed.

Lemma grows_assign f : grows (assign f).
Proof. intros s. exists []. simpl. by rewrite app_nil_r. Qed.

Lemma grows_call {R} (c : Call R) : grows (call E c).
Proof.
  intros s. unfold call. destruct (oracle E (trace s) c); simpl; eauto.
Qed.

Lemma grows_bind {A B} (m : M A) (k : A -> M B) :
  grows m -> (forall a, grows (k a)) -> grows (bind m k).
Proof.
  intros Hm Hk s. unfold bind. destruct (Hm s) as [r1 H1].
  destruct (m s) as [[a|e] s1]; simpl in *.
  - destruct (Hk a s1) as [r2 H2]. exists (r1 ++ r2).
    by rewrite H2, H1, app_assoc.
  - by exists r1.
Qed.

Lemma grows_catch (body : M unit) :
  grows body -> grows (catch_exception_slot_pyqt E body).
Proof.
  intros Hb s. unfold catch_exception_slot_pyqt. destruct (Hb s) as [r1 H1].
  destruct (body s) as [[a|e] s1]; simpl in *.
  - by exists r1.
  - eexists. by rewrite H1, <- app_assoc.
Qed.

Lemma grows_displays {A} (m : M A) : (forall s, displays_at E m s) -> grows m.
Proof. intros H s. destruct (H s) as (evs & -> & _). by exists evs. Qed.

Lemma grows_refresh_all : grows (refresh_all E).
Proof. apply grows_displays, refresh_all_displays. Qed.

Lemma grows_set_OBJECTS o : grows (set_OBJECTS E o).
Proof.
  unfold set_OBJECTS.
  apply grows_bind; [apply grows_get_win|]. intros w.
  apply grows_bind; [apply grows_assign|]. intros _.
  apply grows_bind; [apply grows_get_win|]. intros w'.
  destruct (tree w'); [apply grows_call|apply grows_ret].
Qed.

Lemma grows_change_circ c : grows (change_circ E c).
Proof.
  unfold change_circ.
  apply grows_bind; [apply grows_assign|]. intros _.
  apply grows_bind; [apply grows_get_win|]. intros w.
  apply grows_bind; [apply grows_set_OBJECTS|]. intros _.
  apply grows_bind; [apply grows_attr|]. intros t.
  apply grows_bind; [apply grows_get_win|]. intros w'.
  apply grows_bind; [apply grows_call|]. intros _.
  apply grows_bind; [apply grows_call|]. intros _.
  apply grows_refresh_all.
Qed.

(** A call followed by anything that grows: the call's event comes first. *)
Lemma call_then_grows {R B} (c : Call R) (k : R -> M B) s :
  (forall r, grows (k r)) ->
  exists o rest, trace (snd (bind (call E c) k s)) = trace s ++ Ev c o :: rest.
Proof.
  intros Hk. unfold bind, call.
  destruct (oracle E (trace s) c) as [r|e].
  - destruct (Hk r (record E c (Returns r) s)) as [rest Hrest].
    exists (Returns r), rest. rewrite Hrest. simpl. by rewrite <- app_assoc.
  - by exists (Raises e), [].
Qed.

Lemma catch_prefix (body : M unit) s pre :
  (exists rest, trace (snd (body s)) = pre ++ rest) ->
  exists rest, trace (snd (catch_exception_slot_pyqt E body s)) = pre ++ rest.
Proof.
  intros [rest H]. unfold catch_exception_slot_pyqt.
  destruct (body s) as [[a|e] s1]; simpl in *.
  - by exists rest.
  - eexists. by rewrite H, <- app_assoc.
Qed.

(** The shape the three file actions share: the dialog, then, for a
    filename that is not empty, the collaborator and what follows it. *)
Lemma file_action (dialog : Call string) (R : Type) (collaborator : string -> Window -> Call R)
    (after : string -> R -> M unit) (body : M unit) s f :
  (forall f r, grows (after f r)) ->
  body s =
    (let* filename := call E dialog in
     match filename with
     | EmptyString => ret tt
     | _ => let* w := get_win in
            let* r := call E (collaborator filename w) in
            after filename r
     end) s ->
  answers E s dialog f ->
  (f <> EmptyString ->
   exists o rest,
     trace (snd (catch_exception_slot_pyqt E body s))
       = trace s ++ [Ev dialog (Returns f); Ev (collaborator f (win s)) o] ++ rest) /\
  (f = EmptyString ->
   catch_exception_slot_pyqt E body s = (Ok tt, record E dialog (Returns f) s) /\
   win (snd (catch_exception_slot_pyqt E body s)) = win s).
Proof.
  intros Hafter Hshape Hf. split.
  - intros Hne.
    assert (Hbody : body s =
              bind (call E (collaborator f (win s))) (after f)
                (record E dialog (Returns f) s)).
    { rewrite Hshape, (bind_call_answers E _ _ _ _ Hf).
      by destruct f. }
    destruct (call_then_grows (collaborator f (win s)) (after f)
                (record E dialog (Returns f) s) (Hafter f)) as (o & rest & Hrest).
    destruct (catch_prefix body s
                (trace s ++ [Ev dialog (Returns f); Ev (collaborator f (win s)) o]))
      as [rest' Hrest'].
    { exists rest. rewrite Hbody, Hrest. simpl. by rewrite <- !app_assoc. }
    exists o, rest'. rewrite Hrest'. by rewrite <- !app_assoc.
  - intros ->.
    assert (Hbody : body s = (Ok tt, record E dialog (Returns EmptyString) s)).
    { by rewrite Hshape, (bind_call_answers E _ _ _ _ Hf). }
    unfold catch_exception_slot_pyqt. by rewrite Hbody.
Qed.

End FileActions.

(** C4: each of the three file actions first shows its dialog.  When the
    chosen filename is not empty, the very next call is the collaborator's:
    [save_metal(filename, circ)] with the window's circuit for the save
    action, [load_metal(filename)] for the open action,
    [circ.gds_draw_all(filename)] on the window's circuit for the export.
    When the dialog returns the empty filename, the action returns with the
    dialog as its only call, and the window as it was. *)
Theorem file_actions_call_collaborator (E : Env) (s : World) :
  (forall f,
     let dialog := getSaveFileName "Select locaiton to save Metal objects and circ to" in
     answers E s dialog f ->
     (f <> EmptyString ->
      exists o rest,
        trace (snd (action_save_metal E s))
          = trace s ++ [Ev dialog (Returns f); Ev (save_metal f (circ (win s))) o] ++ rest) /\
     (f = EmptyString ->
      action_save_metal E s = (Ok tt, record E dialog (Returns f) s) /\
      win (snd (action_save_metal E s)) = win s)) /\
  (forall f,
     let dialog := getOpenFileName "Select locaiton to save Metal objects and circ to" in
     answers E s dialog f ->
     (f <> EmptyString ->
      exists o rest,
        trace (snd (action_open_metal E s))
          = trace s ++ [Ev dialog (Returns f); Ev (load_metal f) o] ++ rest) /\
     (f = EmptyString ->
      action_open_metal E s = (Ok tt, record E dialog (Returns f) s) /\
      win (snd (action_open_metal E s)) = win s)) /\
  (forall f,
     let dialog := getSaveFileName "Select locaiton to export GDS file to" in
     answers E s dialog f ->
     (f <> EmptyString ->
      exists o rest,
        trace (snd (action_gds_export E s))
          = trace s ++ [Ev dialog (Returns f); Ev (gds_draw_all (circ (win s)) f) o] ++ rest) /\
     (f = EmptyString ->
      action_gds_export E s = (Ok tt, record E dialog (Returns f) s) /\
      win (snd (action_gds_export E s)) = win s)).
Proof.
  split; [|split]; intros f dialog Hf.
  - apply (file_action E dialog unit (fun f w => save_metal f (circ w))
             (fun f _ => call E (logger_info ("Successfully save metal to " +:+ f))));
      [intros; apply grows_call|reflexivity|done].
  - apply (file_action E dialog Circ (fun f _ => load_metal f)
             (fun f c => change_circ E c >>
                call E (logger_info ("Successfully loaded file" +:+ nl +:+ " file=" +:+ f))));
      [|reflexivity|done].
    intros. apply grows_bind; [apply grows_change_circ|intros; apply grows_call].
  - apply (file_action E dialog unit (fun f w => gds_draw_all (circ w) f)
             (fun _ _ => ret tt)); [intros; apply grows_ret| |done].
    unfold action_gds_export_body. rewrite !(bind_call_answers E _ _ _ _ Hf).
    destruct f as [|a f']; [done|].
    unfold bind, get_win, call. by destruct (oracle E _ _) as [[]|e].
Qed.

(** A run of C4: the user names "chip.metal" in the save dialog of the demo
    window. *)
Lemma file_actions_call_collaborator_witness :
  exists o rest,
    trace (snd (action_save_metal user_env demo_world))
      = [Ev (getSaveFileName "Select locaiton to save Metal objects and circ to")
           (Returns "chip.metal");
         Ev (save_metal "chip.metal" demo_circ) o] ++ rest.
Proof.
  destruct (file_actions_call_collaborator user_env demo_world) as (Hsave & _ & _).
  apply (Hsave "chip.metal"); [reflexivity|discriminate].
Defined.

(** ** Replacing the circuit *)

Section ChangeCirc.

Context (E : Env).

Lemma keeps_win_ret {A} (a : A) : keeps_win (ret a).
Proof. done. Qed.

Lemma keeps_win_attr {A} name (f : Window -> option A) : keeps_win (attr name f).
Proof. intros s. unfold attr. by destruct (f (win s)). Qed.

Lemma keeps_win_call {R} (c : Call R) : keeps_win (call E c).
Proof. intros s. unfold call. by destruct (oracle E (trace s) c). Qed.

Lemma keeps_win_bind {A B} (m : M A) (k : A -> M B) :
  keeps_win m -> (forall a, keeps_win (k a)) -> keeps_win (bind m k).
Proof.
  intros Hm Hk s. unfold bind. specialize (Hm s).
  destruct (m s) as [[a|e] s1]; simpl in *; [|done].
  by rewrite Hk.
Qed.

Lemma keeps_win_refresh_all : keeps_win (refresh_all E).
Proof. intros s. apply refresh_all_win. Qed.

(** What is left of [change_circ(c)] after its assignments. *)
Lemma change_circ_steps c s :
  change_circ E c s =
    ((match tree (win s) with
      | Some t => call E (change_content_dict (tree_widget t) (circ_OBJECTS c))
      | None => ret tt
      end) >>
     let* t := attr "tree_circ_ops" tree_circ_ops in
     call E (change_content_dict (tree_widget t) (circ_params c)) >>
     call E (logger_info "Changed circuit, updated default dictionaries, etc.") >>
     refresh_all E) (repointed c s).
Proof.
  unfold change_circ, set_OBJECTS, repointed, bind, assign, get_win; simpl.
  assert (Hobjs : match circ_OBJECTS c with
                  | Some o => Some o
                  | None => circ_OBJECTS c
                  end = circ_OBJECTS c) by (by destruct (circ_OBJECTS c)).
  rewrite Hobjs.
  destruct (tree (win s)) as [t|]; simpl.
  - unfold call, attr; simpl.
    destruct (oracle E (trace s) (change_content_dict (tree_widget t) (circ_OBJECTS c)))
      as [[]|e]; [|done].
    simpl. by destruct (tree_circ_ops (win s)).
  - unfold attr; simpl. by destruct (tree_circ_ops (win s)).
Qed.

Lemma change_circ_win c s : win (snd (change_circ E c s)) = win (repointed c s).
Proof.
  rewrite change_circ_steps.
  apply (keeps_win_bind _ _).
  - destruct (tree (win s)); [apply keeps_win_call|apply keeps_win_ret].
  - intros _. apply keeps_win_bind; [apply keeps_win_attr|]. intros t.
    apply keeps_win_bind; [apply keeps_win_call|]. intros _.
    apply keeps_win_bind; [apply keeps_win_call|]. intros _.
    apply keeps_win_refresh_all.
Qed.

(** The open action once the dialog and [load_metal] have answered. *)
Lemma action_open_metal_steps f c s :
  let dialog := getOpenFileName "Select locaiton to save Metal objects and circ to" in
  let s1 := record E dialog (Returns f) s in
  f <> EmptyString ->
  answers E s dialog f ->
  answers E s1 (load_metal f) c ->
  action_open_metal E s
    = catch_exception_slot_pyqt E
        (change_circ E c >>
         call E (logger_info ("Successfully loaded file" +:+ nl +:+ " file=" +:+ f)))
        (record E (load_metal f) (Returns c) s1).
Proof.
  intros dialog s1 Hne Hf Hload.
  unfold action_open_metal, catch_exception_slot_pyqt at 1 2.
  unfold action_open_metal_body. rewrite (bind_call_answers E _ _ _ _ Hf).
  fold s1. destruct f as [|a f']; [done|].
  by rewrite (bind_call_answers E _ _ _ _ Hload).
Qed.

Lemma catch_win (body : M unit) s :
  win (snd (catch_exception_slot_pyqt E body s)) = win (snd (body s)).
Proof.
  unfold catch_exception_slot_pyqt. by destruct (body s) as [[[]|e] s1].
Qed.

End ChangeCirc.

(** C5: for every circuit [c], [change_circ(c)] leaves the window holding
    [c] and its [OBJECTS] reference pointing at [c.OBJECTS], however the
    collaborators behave; the window having its trees and the collaborators
    returning, [change_circ(c)] hands [c.OBJECTS] to the object tree, [c.params]
    to the circuit-properties tree, logs, and then goes on as [refresh_all]
    does.  The open action, for a non-empty filename, performs [change_circ] on
    the circuit [load_metal] returned. *)
Theorem change_circ_replaces_circuit (E : Env) (c : Circ) (s : World) :
  (circ (win (snd (change_circ E c s))) = c /\
   OBJECTS (win (snd (change_circ E c s))) = circ_OBJECTS c) /\
  (forall t tc,
     let objs := change_content_dict (tree_widget t) (circ_OBJECTS c) in
     let params := change_content_dict (tree_widget tc) (circ_params c) in
     let info := logger_info "Changed circuit, updated default dictionaries, etc." in
     let s1 := record E objs (Returns tt) (repointed c s) in
     let s2 := record E params (Returns tt) s1 in
     tree (win s) = Some t ->
     tree_circ_ops (win s) = Some tc ->
     answers E (repointed c s) objs tt ->
     answers E s1 params tt ->
     answers E s2 info tt ->
     change_circ E c s = refresh_all E (record E info (Returns tt) s2)) /\
  (forall f,
     let dialog := getOpenFileName "Select locaiton to save Metal objects and circ to" in
     let s1 := record E dialog (Returns f) s in
     f <> EmptyString ->
     answers E s dialog f ->
     answers E s1 (load_metal f) c ->
     action_open_metal E s
       = catch_exception_slot_pyqt E
           (change_circ E c >>
            call E (logger_info ("Successfully loaded file" +:+ nl +:+ " file=" +:+ f)))
           (record E (load_metal f) (Returns c) s1)).
Proof.
  split; [|split].
  - by rewrite change_circ_win.
  - intros t tc objs params info s1 s2 Ht Htc Hobjs Hparams Hinfo.
    rewrite change_circ_steps, Ht.
    rewrite (bind_call_answers E _ _ _ _ Hobjs). fold s1.
    unfold bind at 1, attr. simpl. rewrite Htc.
    rewrite (bind_call_answers E _ _ _ _ Hparams). fold s2.
    by rewrite (bind_call_answers E _ _ _ _ Hinfo).
  - intros f dialog s1 Hne Hf Hload. by apply action_open_metal_steps.
Qed.

(** A run of C5: the demo window opens "chip.metal", which holds
    [other_circ]. *)
Lemma change_circ_replaces_circuit_witness :
  action_open_metal user_env demo_world
    = catch_exception_slot_pyqt user_env
        (change_circ user_env other_circ >>
         call user_env
           (logger_info ("Successfully loaded file" +:+ nl +:+ " file=" +:+ "chip.metal")))
        (record user_env (load_metal "chip.metal") (Returns other_circ)
           (record user_env
              (getOpenFileName "Select locaiton to save Metal objects and circ to")
              (Returns "chip.metal") demo_world)).
Proof.
  destruct (change_circ_replaces_circuit user_env other_circ demo_world)
    as (_ & _ & Hopen).
  apply (Hopen "chip.metal"); [discriminate|reflexivity|reflexivity].
Defined.

(** ** Saving, then opening *)

Section RoundTrip.

Context (E : Env).

Lemma last_saved_snoc f h ev :
  last_saved f (h ++ [ev]) =
    match saved_by f ev with
    | Some c => Some c
    | None => last_saved f h
    end.
Proof.
  induction h as [|ev' h IH]; simpl.
  - by destruct (saved_by f ev).
  - rewrite IH. by destruct (saved_by f ev), (last_saved f h).
Qed.

Lemma saved_by_save f c : saved_by f (Ev (save_metal f c) (Returns tt)) = Some c.
Proof. unfold saved_by; simpl. by rewrite String.eqb_refl. Qed.

(** The save action, the dialog and [save_metal] having answered: the window
    is as it was and the history ends with the circuit saved under [f]. *)
Lemma action_save_metal_saves f s :
  let dialog := getSaveFileName "Select locaiton to save Metal objects and circ to" in
  f <> EmptyString ->
  answers E s dialog f ->
  answers E (record E dialog (Returns f) s) (save_metal f (circ (win s))) tt ->
  win (snd (action_save_metal E s)) = win s /\
  last_saved f (trace (snd (action_save_metal E s))) = Some (circ (win s)).
Proof.
  intros dialog Hne Hf Hsave.
  unfold action_save_metal, catch_exception_slot_pyqt, action_save_metal_body.
  rewrite (bind_call_answers E _ _ _ _ Hf).
  destruct f as [|a f']; [done|].
  rewrite bind_get_win, (bind_call_answers E _ _ _ _ Hsave).
  unfold call.
  destruct (oracle E _ (logger_info _)) as [[]|e]; simpl; split; try done.
  - by rewrite last_saved_snoc, last_saved_snoc, saved_by_save.
  - by rewrite !last_saved_snoc, saved_by_save.
Qed.

End RoundTrip.

(** C7: the persistence functions keeping their contract ([load_metal(f)]
    returns the circuit the last completed [save_metal(f, c)] saved), the user
    choosing the filename [f] in both dialogs, and the save having been
    performed ([save_metal(f, circ)] returns), the save action followed by the
    open action leaves the window holding the circuit it held. *)
Theorem save_then_open_round_trips (E : Env) (s : World) (f : string) :
  load_returns_saved E f ->
  (forall h, oracle E h (getSaveFileName
                "Select locaiton to save Metal objects and circ to") = Returns f) ->
  (forall h, oracle E h (getOpenFileName
                "Select locaiton to save Metal objects and circ to") = Returns f) ->
  (forall h, oracle E h (save_metal f (circ (win s))) = Returns tt) ->
  circ (win (snd (action_open_metal E (snd (action_save_metal E s))))) = circ (win s).
Proof.
  intros Hlaw Hsd Hod Hsave.
  destruct (decide (f = EmptyString)) as [->|Hne].
  - destruct (file_action E
                (getSaveFileName "Select locaiton to save Metal objects and circ to")
                unit (fun f w => save_metal f (circ w))
                (fun f _ => call E (logger_info ("Successfully save metal to " +:+ f)))
                (action_save_metal_body E) s EmptyString) as [_ Hs];
      [intros; apply grows_call|reflexivity|apply Hsd|].
    destruct (Hs eq_refl) as [_ Hws].
    destruct (file_action E
                (getOpenFileName "Select locaiton to save Metal objects and circ to")
                Circ (fun f _ => load_metal f)
                (fun f c => change_circ E c >>
                   call E (logger_info ("Successfully loaded file" +:+ nl +:+ " file=" +:+ f)))
                (action_open_metal_body E) (snd (action_save_metal E s)) EmptyString)
      as [_ Ho]; [|reflexivity|apply Hod|].
    { intros. apply grows_bind; [apply grows_change_circ|intros; apply grows_call]. }
    destruct (Ho eq_refl) as [_ Hwo].
    unfold action_open_metal. rewrite Hwo. unfold action_save_metal. by rewrite Hws.
  - destruct (action_save_metal_saves E f s Hne (Hsd _) (Hsave _)) as [Hw Hlast].
    set (sa := snd (action_save_metal E s)) in *.
    rewrite (action_open_metal_steps E f (circ (win s)) sa Hne (Hod _)).
    + rewrite catch_win. unfold bind.
      pose proof (change_circ_win E (circ (win s))
                    (record E (load_metal f) (Returns (circ (win s)))
                       (record E (getOpenFileName
                          "Select locaiton to save Metal objects and circ to")
                          (Returns f) sa))) as Hc.
      destruct (change_circ E _ _) as [[[]|e] sd]; simpl in *.
      * rewrite (keeps_win_call E _ sd). by rewrite Hc.
      * by rewrite Hc.
    + apply Hlaw. simpl. by rewrite last_saved_snoc.
Qed.

Lemma user_env_load_returns_saved f : load_returns_saved user_env f.
Proof. intros h c H. simpl. by rewrite H. Qed.

(** A run of C7: the demo window saves to "chip.metal" and opens it again. *)
Lemma save_then_open_round_trips_witness :
  circ (win (snd (action_open_metal user_env
                    (snd (action_save_metal user_env demo_world)))))
    = circ (win demo_world).
Proof.
  apply (save_then_open_round_trips user_env demo_world "chip.metal").
  - apply user_env_load_returns_saved.
  - reflexivity.
  - reflexivity.
  - reflexivity.
Defined.

(** ** Clearing, declined *)

(** C9: [clear_all_objects] first asks the user; when the answer is anything
    but Yes the slot returns with the question as its only call: no
    [circ.clear_all_objects()], no refresh, no stack trace; the window's
    attributes (its circuit and [OBJECTS] references among them), the
    logger's handlers and the exception hook are as they were, and so are the
    contents of the mappings, as far as showing the dialog leaves them. *)
Theorem clear_all_objects_declined (E : Env) (s : World) (answer : StandardButton) :
  let ask := QMessageBox_question ""
               "Are you sure you want to clear all Metal objects?" in
  answers E s ask answer ->
  answer <> Yes ->
  clear_all_objects E s = (Ok tt, record E ask (Returns answer) s) /\
  trace (snd (clear_all_objects E s)) = trace s ++ [Ev ask (Returns answer)] /\
  win (snd (clear_all_objects E s)) = win s /\
  handlers (snd (clear_all_objects E s)) = handlers s /\
  sys_excepthook (snd (clear_all_objects E s)) = sys_excepthook s /\
  ((forall st, effect E ask (Returns answer) st = st) ->
   store (snd (clear_all_objects E s)) = store s).
Proof.
  intros ask Hask Hno.
  assert (Hrun : clear_all_objects E s = (Ok tt, record E ask (Returns answer) s)).
  { unfold clear_all_objects, catch_exception_slot_pyqt, clear_all_objects_body.
    rewrite (bind_call_answers E _ _ _ _ Hask). by destruct answer. }
  rewrite Hrun. repeat split; try done.
  intros Heff. simpl. apply Heff.
Qed.

(** A run of C9: the user answers No in the demo window. *)
Lemma clear_all_objects_declined_witness :
  clear_all_objects quiet_env demo_world
    = (Ok tt,
       record quiet_env
         (QMessageBox_question "" "Are you sure you want to clear all Metal objects?")
         (Returns No) demo_world).
Proof.
  apply (clear_all_objects_declined quiet_env demo_world No);
    [reflexivity|discriminate].
Defined.

(** ** Closing the window *)

Section Close.

Context (E : Env).

(** The loop stops at its first element, whatever handler was asked for. *)
Lemma remove_handler_loop_first handler l :
  remove_handler_loop 0 handler l l = tail l.
Proof.
  destruct l as [|h l]; simpl; [done|]. by rewrite bool_decide_true.
Qed.

(** [closeEvent] drops the head of the logger's handler list. *)
Lemma closeEvent_handlers event s h :
  _log_handler (win s) = Some h ->
  handlers (snd (closeEvent E event s)) = tail (handlers s).
Proof.
  intros Hh.
  unfold closeEvent, try_finally, try_except, _logging_remove_handler, bind,
    attr, get_handlers, set_handlers.
  rewrite Hh. simpl. rewrite remove_handler_loop_first.
  unfold call. by destruct (oracle E _ _).
Qed.

(** [closeEvent] never fails to reach the parent's close handling: it is the
    last call of [closeEvent], in every state and environment; and an error
    during the removal of the handler (here: the attribute [_log_handler] does
    not exist) is printed first. *)
Theorem closeEvent_calls_parent event s :
  (exists o,
     last (trace (snd (closeEvent E event s))) = Some (Ev (super_closeEvent event) o)) /\
  (_log_handler (win s) = None ->
   exists o1 o2,
     trace (snd (closeEvent E event s))
       = trace s ++
         [Ev (print ("Error while closing main gui window: "
                     +:+ "'Metal_gui' object has no attribute '_log_handler'")) o1;
          Ev (super_closeEvent event) o2]).
Proof.
  split.
  - unfold closeEvent, try_finally.
    destruct (try_except _ _ _ s) as [r s1].
    unfold call. destruct (oracle E (trace s1) (super_closeEvent event)) as [[]|e];
      simpl; eexists; apply last_snoc.
  - intros Hnone.
    unfold closeEvent, try_finally, try_except, bind, attr. rewrite Hnone. simpl.
    unfold call at 1.
    destruct (oracle E (trace s) (print _)) as [[]|e1]; unfold call;
      destruct (oracle E _ (super_closeEvent event)) as [[]|e2]; simpl;
      do 2 eexists; by rewrite <- app_assoc.
Qed.

End Close.

(** C8, as the code has it: the Metal logger holds the console handler [7]
    and then the window's own handler [71]; closing the window removes the
    console handler and leaves the window's, where removing the window's own
    handler would have left the console handler alone. *)
Theorem closeEvent_removes_first_handler :
  _log_handler (win demo_world) = Some 71 /\
  handlers demo_world = [7; 71] /\
  handlers (snd (closeEvent quiet_env 9 demo_world)) = [71] /\
  remove_own_handler 71 (handlers demo_world) = [7].
Proof. repeat split. Qed.

(** ** Adding a creation button *)

(** C10, as the code has it: the module imports and the class is found, but
    the class has no [_img] attribute; [add_metal_object] raises [TypeError]
    out of [Path(None)]: it returns neither True nor False, and neither the
    toolbar icon nor the attribute [create_<tool_name>] is added. *)
Theorem add_metal_object_raises_without_img :
  let run := add_metal_object no_img_env 80 "qiskit_metal.objects.Metal_Qubit"
               None demo_world in
  fst run = Err (mkExn TypeError
                   "expected str, bytes or os.PathLike object, not NoneType") /\
  created (win (snd run)) = ∅ /\
  trace (snd run)
    = [Ev (import_module "qiskit_metal.objects.Metal_Qubit") (Returns 60);
       Ev (getattr_module 60 "Metal_Qubit") (Returns class_without_img)].
Proof. repeat split. Qed.

Section AddMetalObject.

Context (E : Env).

Lemma bind_call_raises {R B} (c : Call R) (k : R -> M B) s e :
  oracle E (trace s) c = Raises e ->
  bind (call E c) k s = (Err e, record E c (Raises e) s).
Proof. intros H. unfold bind, call. by rewrite H. Qed.

End AddMetalObject.

(** The name of the class in a dotted path, and the tool's name. *)
Lemma class_name_of_path :
  List.last (split_on "."%char "qiskit_metal.objects.Metal_Qubit") EmptyString
    = "Metal_Qubit".
Proof. reflexivity. Qed.

(** [add_metal_object] when the module does not import ([ImportError] or a
    subclass of it) or the class cannot be fetched from it (any [Exception]):
    the failure is logged as an error and, the logger returning, the method
    returns False; no toolbar icon is added and the window is as it was. *)
Theorem add_metal_object_returns_False (E : Env) (toolbar : Ref)
    (metal_class_name : string) (tool_name : option string) (s : World) :
  let class_name := List.last (split_on "."%char metal_class_name) EmptyString in
  let import := import_module metal_class_name in
  (forall e msg,
     oracle E (trace s) import = Raises e ->
     is_ImportError (exn_class e) = true ->
     msg = "add_metal_object: Could not load object module for the toolbar."
           +:+ nl +:+ " Failed to load " +:+ metal_class_name +:+ nl
           +:+ " Please check the name path and that the file does not have errors. "
           +:+ nl +:+ "Error (" +:+ exn_str e +:+ "): " +:+ nl +:+ repr_exc_info E e ->
     answers E (record E import (Raises e) s) (logger_error msg) tt ->
     add_metal_object E toolbar metal_class_name tool_name s
       = (Ok false, extend E s [Ev import (Raises e); Ev (logger_error msg) (Returns tt)])) /\
  (forall module e msg,
     let find := getattr_module module class_name in
     answers E s import module ->
     oracle E (trace (record E import (Returns module) s)) find = Raises e ->
     is_Exception (exn_class e) = true ->
     msg = "add_metal_object: Loaded module " +:+ class_name
           +:+ " but could not find/load class " +:+ class_name +:+ nl
           +:+ "Error (" +:+ exn_str e +:+ "): " +:+ nl +:+ repr_exc_info E e ->
     answers E (record E find (Raises e) (record E import (Returns module) s))
       (logger_error msg) tt ->
     add_metal_object E toolbar metal_class_name tool_name s
       = (Ok false,
          extend E s [Ev import (Returns module); Ev find (Raises e);
                      Ev (logger_error msg) (Returns tt)])).
Proof.
  intros class_name import. split.
  - intros e msg Himp Hcls -> Hlog.
    unfold add_metal_object, bind at 1, try_except.
    fold import. rewrite (bind_call_raises E _ _ _ _ Himp), Hcls.
    rewrite (bind_call_answers E _ _ _ _ Hlog). simpl.
    by rewrite !record_extend, extend_extend.
  - intros module e msg find Himp Hfind Hcls -> Hlog.
    unfold add_metal_object, bind at 1, try_except.
    fold import. rewrite (bind_call_answers E _ _ _ _ Himp). simpl.
    unfold bind at 1, try_except. fold class_name find.
    rewrite (bind_call_raises E _ _ _ _ Hfind), Hcls.
    rewrite (bind_call_answers E _ _ _ _ Hlog). simpl.
    by rewrite !record_extend, !extend_extend.
Qed.

(** A run: the module of the class does not import. *)
Lemma add_metal_object_returns_False_witness :
  fst (add_metal_object no_module_env 80 "qiskit_metal.objects.Metal_Qubit" None
         demo_world) = Ok false.
Proof.
  destruct (add_metal_object_returns_False no_module_env 80
              "qiskit_metal.objects.Metal_Qubit" None demo_world) as [Himport _].
  erewrite Himport; reflexivity.
Defined.

(** [add_metal_object] when the module imports, the class is found and has
    an [_img] that is a file under the window's image directory: the toolbar
    icon is added under the tool's name with the creation callback of that
    class, the attribute [create_<tool_name>] is set to the same callback, and
    the method returns True. *)
Theorem add_metal_object_adds_tool (E : Env) (toolbar : Ref)
    (metal_class_name : string) (s : World) :
  forall module metal_class img ip,
    let class_name := List.last (split_on "."%char metal_class_name) EmptyString in
    let import := import_module metal_class_name in
    let find := getattr_module module class_name in
    let check := is_file (path_join ip img) in
    let callback := create_metal_obj_closure metal_class in
    let icon := add_toolbar_icon toolbar class_name (path_join ip img) callback
                  (toolbar_label class_name) in
    let s1 := record E import (Returns module) s in
    let s2 := record E find (Returns metal_class) s1 in
    let s3 := record E check (Returns true) s2 in
    let s4 := record E icon (Returns tt) s3 in
    class__img metal_class = Some img ->
    imgs_path (win s) = Some ip ->
    answers E s import module ->
    answers E s1 find metal_class ->
    answers E s2 check true ->
    answers E s3 icon tt ->
    fst (add_metal_object E toolbar metal_class_name None s) = Ok true /\
    trace (snd (add_metal_object E toolbar metal_class_name None s)) = trace s4 /\
    created (win (snd (add_metal_object E toolbar metal_class_name None s)))
      = <["create_" +:+ class_name := callback]> (created (win s)).
Proof.
  intros module metal_class img ip class_name import find check callback icon
    s1 s2 s3 s4 Himg Hip Himp Hfind Hcheck Hicon.
  assert (Hrun : add_metal_object E toolbar metal_class_name None s
                 = (Ok true,
                    mkWorld (with_created ("create_" +:+ class_name) callback (win s))
                      (trace s4) (store s4) (handlers s) (sys_excepthook s))).
  2: { by rewrite Hrun. }
  unfold add_metal_object, bind at 1, try_except. fold import class_name.
  rewrite (bind_call_answers E _ _ _ _ Himp). fold s1. simpl.
  unfold bind at 1, try_except. fold find.
  rewrite (bind_call_answers E _ _ _ _ Hfind). fold s2. simpl.
  rewrite Himg. unfold bind at 1 2, attr. simpl. rewrite Hip. simpl.
  unfold bind at 1. simpl. fold check.
  rewrite (bind_call_answers E _ _ _ _ Hcheck). fold s3.
  unfold bind at 1. simpl. fold callback icon.
  by rewrite (bind_call_answers E _ _ _ _ Hicon).
Qed.

(** A run: the qubit class gets its button in the demo window. *)
Lemma add_metal_object_adds_tool_witness :
  fst (add_metal_object quiet_env 80 "qiskit_metal.objects.Metal_Qubit" None
         demo_world) = Ok true.
Proof.
  apply (add_metal_object_adds_tool quiet_env 80 "qiskit_metal.objects.Metal_Qubit"
           demo_world 60 demo_class "Metal_Qubit.png" "_imgs"); reflexivity.
Defined.

(** ** The drawing that fails *)

(** Inside [re_draw], an [Exception] raised by [draw_all_objects] does not
    reach the boundary: the [try] statement logs it as an error of the Metal
    logger, with its stack trace after two newlines, and the redraw carries
    on from there. *)
Theorem re_draw_try_logs_exception (E : Env) (s : World) (ax : Ref) (e : Exn) :
  let draw := draw_all_objects (OBJECTS (win s)) ax re_draw_func in
  ax_draw (win s) = Some ax ->
  oracle E (trace s) draw = Raises e ->
  is_Exception (exn_class e) = true ->
  re_draw_try E s
    = call E (logger_error (nl +:+ nl +:+ format_exc E e)) (record E draw (Raises e) s).
Proof.
  intros draw Hax Hdraw Hcls.
  unfold re_draw_try, try_except. rewrite bind_get_win.
  unfold bind at 1, attr. rewrite Hax. fold draw.
  unfold call at 1. by rewrite Hdraw, Hcls.
Qed.

(** A run: the drawing of the demo window's objects raises a [ValueError]. *)
Lemma re_draw_try_logs_exception_witness :
  trace (snd (re_draw_try failing_draw_env demo_world))
    = [Ev (draw_all_objects (Some 2) 22 re_draw_func)
         (Raises (mkExn (OtherException "ValueError") "bad polygon"));
       Ev (logger_error (nl +:+ nl +:+ "Traceback (most recent call last):"
                         +:+ nl +:+ "bad polygon")) (Returns tt)].
Proof.
  rewrite (re_draw_try_logs_exception failing_draw_env demo_world 22
             (mkExn (OtherException "ValueError") "bad polygon"));
    reflexivity.
Defined.

(** ** The window's handler on the Metal logger *)

Section Handlers.

Context (E : Env).

Lemma add_dock_frame name widget location width s dock s' :
  _add_dock E name widget location width s = (Ok dock, s') ->
  win s' = win s /\ handlers s' = handlers s /\
  sys_excepthook s' = sys_excepthook s.
Proof.
  intros H. unfold _add_dock in H. returned.
  destruct width as [[|w]|]; returned; repeat split.
Qed.

Lemma addHandler_Ok h s u s' :
  addHandler h s = (Ok u, s') ->
  win s' = win s /\ sys_excepthook s' = sys_excepthook s /\
  handlers s' = (if bool_decide (h ∈ handlers s) then handlers s
                 else handlers s ++ [h]).
Proof.
  intros H. unfold addHandler in H. returned.
  destruct (bool_decide _); returned; repeat split.
Qed.

Lemma setup_logging_state catch_exceptions s s' :
  _setup_logging E catch_exceptions s = (Ok tt, s') ->
  exists h lw dock,
    win s' = with_logView_dock dock
               (with_logger_excepthook window_excepthook
                  (with_log_handler h (with_logger_window lw (win s)))) /\
    handlers s' = (if bool_decide (h ∈ handlers s) then handlers s
                   else handlers s ++ [h]) /\
    sys_excepthook s' = (if catch_exceptions then window_excepthook
                         else sys_excepthook s).
Proof.
  intros H. unfold _setup_logging in H. returned.
  repeat match goal with
  | H : addHandler _ _ = (Ok _, _) |- _ =>
      apply addHandler_Ok in H as (? & ? & ?)
  | H : _add_dock _ _ _ _ _ _ = (Ok _, _) |- _ =>
      apply add_dock_frame in H as (? & ? & ?)
  end.
  destruct (tree_dock _); returned.
  destruct catch_exceptions; returned; simpl in *;
    repeat match goal with
    | H : win _ = _ |- _ => rewrite H in *; clear H; simpl in *
    | H : sys_excepthook _ = _ |- _ => rewrite H in *; clear H; simpl in *
    | H : handlers _ = _ |- _ => rewrite H in *; clear H; simpl in *
    end.
  all: repeat match goal with
       | H : Some _ = Some _ |- _ => injection H as <-
       end.
  all: eauto 10.
Qed.

End Handlers.

(** After [_setup_logging] has returned, with either value of
    [catch_exceptions]: the window holds its handler, the handler is on the
    Metal logger, the handlers that were there are still there in their
    order with at most the window's appended (not a second time when the
    logger held it already), and the window remembers its hook;
    [sys.excepthook] is replaced only when [catch_exceptions] is true.  The
    circuit and the two mappings of the window are not touched. *)
Theorem setup_logging_registers_handler (E : Env) (catch_exceptions : bool)
    (s s' : World) :
  _setup_logging E catch_exceptions s = (Ok tt, s') ->
  exists h,
    _log_handler (win s') = Some h /\
    h ∈ handlers s' /\
    handlers s' = (if bool_decide (h ∈ handlers s) then handlers s
                   else handlers s ++ [h]) /\
    _logger_excepthook (win s') = Some window_excepthook /\
    sys_excepthook s' = (if catch_exceptions then window_excepthook
                         else sys_excepthook s) /\
    circ (win s') = circ (win s) /\
    OBJECTS (win s') = OBJECTS (win s) /\
    DEFAULT_OPTIONS (win s') = DEFAULT_OPTIONS (win s).
Proof.
  intros H. destruct (setup_logging_state E _ _ _ H) as (h & lw & dock & Hw & Hh & Hk).
  exists h. rewrite Hw, Hh, Hk. simpl. repeat split.
  case_bool_decide; [done|]. apply elem_of_app. right. by apply list_elem_of_singleton.
Qed.

(** A run: the set-up without the hook leaves [sys.excepthook] alone and
    appends the window's handler after the console handler. *)
Lemma setup_logging_registers_handler_witness :
  exists h,
    _log_handler (win (snd (_setup_logging quiet_env false world_before_logging)))
      = Some h /\
    h ∈ handlers (snd (_setup_logging quiet_env false world_before_logging)).
Proof.
  destruct (setup_logging_registers_handler quiet_env false world_before_logging
              (snd (_setup_logging quiet_env false world_before_logging)))
    as (h & Hh & Hin & _).
  - vm_compute. reflexivity.
  - exists h. by split.
Defined.

Section CloseAfterSetup.

Context (E : Env).

Lemma closeEvent_frame event s :
  win (snd (closeEvent E event s)) = win s /\
  sys_excepthook (snd (closeEvent E event s)) = sys_excepthook s.
Proof.
  unfold closeEvent, try_finally, try_except, _logging_remove_handler, bind,
    attr, get_handlers, set_handlers.
  destruct (_log_handler (win s)); simpl.
  - unfold call. by destruct (oracle E _ _).
  - unfold call. destruct (oracle E (trace s) (print _)) as [[]|e]; simpl;
      by destruct (oracle E _ (super_closeEvent event)).
Qed.

End CloseAfterSetup.

(** [closeEvent] on a window that has its handler: the Metal logger loses
    the first handler of its list, whichever handler the window's own is, and
    keeps the others in their order (an empty list stays empty, and nothing is
    raised for it); the window's attributes and the exception hook stay. *)
Theorem closeEvent_drops_first_handler (E : Env) (event : Ref) (s : World) (h : Ref) :
  _log_handler (win s) = Some h ->
  handlers (snd (closeEvent E event s)) = tail (handlers s) /\
  win (snd (closeEvent E event s)) = win s /\
  sys_excepthook (snd (closeEvent E event s)) = sys_excepthook s /\
  exists o, trace (snd (closeEvent E event s)) = trace s ++ [Ev (super_closeEvent event) o].
Proof.
  intros Hh. split; [by apply (closeEvent_handlers E event s h)|].
  destruct (closeEvent_frame E event s) as [Hw Hk]. do 2 (split; [done|]).
  unfold closeEvent, try_finally, try_except, _logging_remove_handler, bind,
    attr, get_handlers, set_handlers.
  rewrite Hh. simpl. unfold call.
  destruct (oracle E _ _) as [[]|e]; simpl; eauto.
Qed.

(** A run: the window's handler [71] comes second; the console handler
    goes. *)
Lemma closeEvent_drops_first_handler_witness :
  handlers (snd (closeEvent quiet_env 9 demo_world)) = tail (handlers demo_world).
Proof.
  apply (closeEvent_drops_first_handler quiet_env 9 demo_world 71). reflexivity.
Defined.

(** Setting up the logging and closing the window, one after the other: the
    handler list is the one the set-up left, less its first element.  The
    Metal logger is back to what it was only when it had no handler before
    the window came; when it had handlers and the window's is a new one, the
    oldest handler is gone and the window's stays registered. *)
Theorem setup_then_close_handlers (E : Env) (catch_exceptions : bool)
    (event : Ref) (s s1 : World) :
  _setup_logging E catch_exceptions s = (Ok tt, s1) ->
  handlers (snd (closeEvent E event s1)) = tail (handlers s1) /\
  (handlers s = [] -> handlers (snd (closeEvent E event s1)) = []) /\
  (forall h0 rest h,
     handlers s = h0 :: rest ->
     _log_handler (win s1) = Some h ->
     h ∉ handlers s ->
     handlers (snd (closeEvent E event s1)) = rest ++ [h]).
Proof.
  intros H. destruct (setup_logging_state E _ _ _ H) as (h & lw & dock & Hw & Hh & _).
  assert (Hown : _log_handler (win s1) = Some h) by (by rewrite Hw).
  rewrite (closeEvent_handlers E event s1 h Hown), Hh.
  split; [done|]. split.
  - intros Hnil. rewrite Hnil. by case_bool_decide.
  - intros h0 rest h' Hs Hh' Hfresh. rewrite Hown in Hh'. injection Hh' as <-.
    rewrite bool_decide_false by done. by rewrite Hs.
Qed.

(** A run: a logger without handlers gets the window's and loses it again. *)
Lemma setup_then_close_handlers_witness :
  handlers (snd (closeEvent quiet_env 9
                   (snd (_setup_logging quiet_env true world_with_bare_logger))))
    = [].
Proof.
  apply (setup_then_close_handlers quiet_env true 9 world_with_bare_logger
           (snd (_setup_logging quiet_env true world_with_bare_logger))).
  - vm_compute. reflexivity.
  - reflexivity.
Defined.

(** ** Docks *)

(** [_add_dock] having returned: what it returns is the dock [QDockWidget]
    made; the calls were, in this order, the widget set, the dock docked
    (not floating), its toggle action added to the View menu, the dock added
    to the named area of the main window, and the minimum width set exactly
    when a width other than [None] and [0] was given; the window's
    attributes, the logger's handlers and the exception hook stay. *)
Theorem add_dock_returns_docked (E : Env) (name : string) (widget : Ref)
    (location : string) (minimum_width : option nat) (s s' : World) (dock : Ref) :
  _add_dock E name widget location minimum_width s = (Ok dock, s') ->
  exists menu action,
    menu_view (win s) = Some menu /\
    trace s' = trace s ++
      [Ev (QDockWidget name) (Returns dock);
       Ev (dock_setWidget dock widget) (Returns tt);
       Ev (dock_setFloating dock false) (Returns tt);
       Ev (dock_toggleViewAction dock) (Returns action);
       Ev (menu_addAction menu action) (Returns tt);
       Ev (addDockWidget (location +:+ "DockWidgetArea") dock) (Returns tt)] ++
      match minimum_width with
      | Some (S w) => [Ev (dock_setMinimumWidth dock (S w)) (Returns tt)]
      | _ => []
      end /\
    win s' = win s /\ handlers s' = handlers s /\
    sys_excepthook s' = sys_excepthook s.
Proof.
  intros H. destruct (add_dock_frame E _ _ _ _ _ _ _ H) as (Hw & Hh & Hk).
  unfold _add_dock in H. returned.
  destruct minimum_width as [[|w]|]; simpl in *; returned;
    repeat match goal with u : unit |- _ => destruct u end;
    do 2 eexists; (split; [eassumption|]); (split; [|done]);
    simpl; by rewrite <- ?app_assoc.
Qed.

(** A run: the dock of the log panel, with no minimum width. *)
Lemma add_dock_returns_docked_witness :
  win (snd (_add_dock quiet_env "Logs" 70 "Right" (Some 0) demo_world))
    = win demo_world.
Proof.
  destruct (add_dock_returns_docked quiet_env "Logs" 70 "Right" (Some 0) demo_world
              (snd (_add_dock quiet_env "Logs" 70 "Right" (Some 0) demo_world)) 72)
    as (menu & action & _ & _ & Hw & _).
  - vm_compute. reflexivity.
  - exact Hw.
Defined.

(** ** The two setters *)

(** [set_OBJECTS]: the reference stored is the argument, or the circuit's
    [OBJECTS] for [None]; no other attribute changes, whether the method
    returns or raises.  Before the object tree exists (as when [__init__]
    calls it) the method makes no call.  With the tree, its one call hands the
    tree the reference just stored, and the method returns exactly when that
    call does: when the tree raises, the reference is stored all the same.
    A second call overrides the first. *)
Theorem set_OBJECTS_stores_then_tells_tree (E : Env) (o : option Ref) (s : World) :
  let stored := resolved_OBJECTS o (win s) in
  let s1 := with_window (with_OBJECTS stored (win s)) s in
  win (snd (set_OBJECTS E o s)) = with_OBJECTS stored (win s) /\
  (tree (win s) = None -> set_OBJECTS E o s = (Ok tt, s1)) /\
  (forall t, tree (win s) = Some t ->
     set_OBJECTS E o s = call E (change_content_dict (tree_widget t) stored) s1) /\
  (forall o',
     OBJECTS (win (snd (set_OBJECTS E o' (snd (set_OBJECTS E o s)))))
       = resolved_OBJECTS o' (win s)).
Proof.
  intros stored s1.
  assert (Hrun : set_OBJECTS E o s =
                 match tree (win s) with
                 | Some t => call E (change_content_dict (tree_widget t) stored) s1
                 | None => (Ok tt, s1)
                 end).
  { unfold set_OBJECTS, bind, get_win, assign, stored, resolved_OBJECTS. simpl.
    destruct o; simpl; by destruct (tree (win s)). }
  assert (Hwin : forall o0 s0,
            win (snd (set_OBJECTS E o0 s0))
              = with_OBJECTS (resolved_OBJECTS o0 (win s0)) (win s0)).
  { intros o0 s0.
    unfold set_OBJECTS, bind, get_win, assign, resolved_OBJECTS. simpl.
    destruct o0; simpl; destruct (tree (win s0)); try done;
      unfold call; by destruct (oracle E _ _). }
  split; [apply Hwin|]. split; [|split].
  - intros Ht. by rewrite Hrun, Ht.
  - intros t Ht. by rewrite Hrun, Ht.
  - intros o'. rewrite Hwin, Hwin. by destruct o'.
Qed.

(** A run: the object tree of the demo window refuses the new dictionary;
    the window points at it all the same. *)
Lemma set_OBJECTS_stores_then_tells_tree_witness :
  fst (set_OBJECTS failing_tree_env (Some 12) demo_world)
    = Err (mkExn (OtherException "RuntimeError") "tree deleted") /\
  OBJECTS (win (snd (set_OBJECTS failing_tree_env (Some 12) demo_world))) = Some 12.
Proof.
  destruct (set_OBJECTS_stores_then_tells_tree failing_tree_env (Some 12) demo_world)
    as (Hw & _ & Hcall & _).
  split.
  - by rewrite (Hcall (mkTree 30 (Some 31)) eq_refl).
  - by rewrite Hw.
Defined.

(** [set_DEFAULT_OPTIONS]: for [None] the package's [DEFAULT_OPTIONS] is
    imported first; when that import raises, the method raises the same,
    nothing is stored and no tree is told.  Otherwise the reference imported
    (for [None]) or given is what the getter returns afterwards, also when the
    default-options tree raises on being told; the circuit and [OBJECTS] stay;
    and with a reference given, nothing is imported: the only call there can
    be is the tree's. *)
Theorem set_DEFAULT_OPTIONS_stores_what_it_gets (E : Env) (s : World) :
  (forall e,
     oracle E (trace s) import_DEFAULT_OPTIONS = Raises e ->
     fst (set_DEFAULT_OPTIONS E None s) = Err e /\
     win (snd (set_DEFAULT_OPTIONS E None s)) = win s /\
     trace (snd (set_DEFAULT_OPTIONS E None s))
       = trace s ++ [Ev import_DEFAULT_OPTIONS (Raises e)]) /\
  (forall d,
     answers E s import_DEFAULT_OPTIONS d ->
     DEFAULT_OPTIONS (win (snd (set_DEFAULT_OPTIONS E None s))) = d) /\
  (forall d,
     DEFAULT_OPTIONS (win (snd (set_DEFAULT_OPTIONS E (Some d) s))) = Some d /\
     circ (win (snd (set_DEFAULT_OPTIONS E (Some d) s))) = circ (win s) /\
     OBJECTS (win (snd (set_DEFAULT_OPTIONS E (Some d) s))) = OBJECTS (win s) /\
     (tree_def_ops (win s) = None ->
      trace (snd (set_DEFAULT_OPTIONS E (Some d) s)) = trace s) /\
     (forall t, tree_def_ops (win s) = Some t ->
        exists o,
          trace (snd (set_DEFAULT_OPTIONS E (Some d) s))
            = trace s ++ [Ev (change_content_dict (tree_widget t) (Some d)) o])).
Proof.
  split; [|split].
  - intros e He. unfold set_DEFAULT_OPTIONS.
    by rewrite (bind_call_raises E _ _ _ _ He).
  - intros d Hd. unfold set_DEFAULT_OPTIONS.
    rewrite (bind_call_answers E _ _ _ _ Hd).
    unfold bind, assign, get_win. simpl.
    destruct (tree_def_ops (win s)); [|done].
    unfold call. by destruct (oracle E _ _).
  - intros d. unfold set_DEFAULT_OPTIONS, bind, ret, assign, get_win. simpl.
    destruct (tree_def_ops (win s)) as [t|]; simpl.
    + unfold call. destruct (oracle E _ _) as [[]|e]; simpl;
        repeat split; try done; intros t' [= <-]; eauto.
    + repeat split; try done.
Qed.

(** A run: the package's [DEFAULT_OPTIONS] cannot be imported. *)
Lemma set_DEFAULT_OPTIONS_stores_what_it_gets_witness :
  win (snd (set_DEFAULT_OPTIONS failing_tree_env None demo_world)) = win demo_world.
Proof.
  destruct (set_DEFAULT_OPTIONS_stores_what_it_gets failing_tree_env demo_world)
    as (Hraise & _ & _).
  apply (Hraise (mkExn ImportError "cannot import name")). reflexivity.
Defined.

(** ** The creation callback at its edges *)

(** The creation callback on a dialog that is rejected, or accepted with an
    empty name: the callback returns with the dialog and its [get_params] as
    the only calls; no object is constructed, nothing is refreshed, and the
    window, the logger's handlers and the exception hook are as they were. *)
Theorem create_metal_obj_declined (E : Env) (metal_class : MetalClass) (s : World)
    (form : Ref) (result : bool) (my_args : CreateArgs) :
  let dialog := Dialog_create_metal metal_class in
  let s1 := record E dialog (Returns form) s in
  answers E s dialog form ->
  answers E s1 (get_params form) (result, my_args) ->
  result = false \/ arg_name my_args = EmptyString ->
  create_metal_obj E metal_class s
    = (Ok tt, extend E s [Ev dialog (Returns form);
                          Ev (get_params form) (Returns (result, my_args))]).
Proof.
  intros dialog s1 Hd Hp Hno.
  unfold create_metal_obj. rewrite (bind_call_answers E _ _ _ _ Hd). fold s1.
  rewrite (bind_call_answers E _ _ _ _ Hp).
  unfold s1. rewrite !record_extend, extend_extend. simpl.
  destruct Hno as [-> | Hname]; [done|].
  rewrite Hname. by destruct result.
Qed.

(** A run: the dialog of the qubit class is cancelled. *)
Lemma create_metal_obj_declined_witness :
  win (snd (create_metal_obj quiet_env demo_class demo_world)) = win demo_world.
Proof.
  rewrite (create_metal_obj_declined quiet_env demo_class demo_world 50 false
             (mkArgs EmptyString None)); [reflexivity..|by left].
Defined.

(** The creation callback carries no decorator: when the constructor of the
    class raises, the callback raises the same exception to its caller;
    nothing is refreshed and nothing is written to the log panel by the
    callback, and the window is as it was. *)
Theorem create_metal_obj_propagates (E : Env) (metal_class : MetalClass) (s : World)
    (form : Ref) (name : string) (options : option Ref) (e : Exn) :
  let dialog := Dialog_create_metal metal_class in
  let params := get_params form in
  let new := new_metal_object metal_class (circ (win s)) name options in
  let s1 := record E dialog (Returns form) s in
  let s2 := record E params (Returns (true, mkArgs name options)) s1 in
  name <> EmptyString ->
  answers E s dialog form ->
  answers E s1 params (true, mkArgs name options) ->
  oracle E (trace s2) new = Raises e ->
  create_metal_obj E metal_class s
    = (Err e, extend E s [Ev dialog (Returns form);
                          Ev params (Returns (true, mkArgs name options));
                          Ev new (Raises e)]).
Proof.
  intros dialog params new s1 s2 Hname Hd Hp Hnew.
  unfold create_metal_obj. rewrite (bind_call_answers E _ _ _ _ Hd). fold s1.
  rewrite (bind_call_answers E _ _ _ _ Hp). fold s2. simpl.
  destruct name as [|a name]; [done|].
  rewrite bind_get_win.
  assert (Hc : circ (win s2) = circ (win s)) by done. rewrite Hc. fold new.
  rewrite (bind_call_raises E _ _ _ _ Hnew).
  unfold s2, s1. by rewrite !record_extend, !extend_extend.
Qed.

(** A run: the constructor of the qubit class rejects the options. *)
Lemma create_metal_obj_propagates_witness :
  fst (create_metal_obj failing_constructor_env demo_class demo_world)
    = Err (mkExn (OtherException "ValueError") "bad options").
Proof.
  rewrite (create_metal_obj_propagates failing_constructor_env demo_class demo_world
             50 "Q1" (Some 5) (mkExn (OtherException "ValueError") "bad options"));
    [reflexivity|discriminate|reflexivity..].
Defined.

(** ** Failures on the way to a new circuit *)

(** [change_circ] does not roll back: when the object tree raises on being
    handed the new circuit's [OBJECTS], [change_circ] raises the same, and the
    window already holds the new circuit and its [OBJECTS]; the
    circuit-properties tree has not been told and nothing was refreshed. *)
Theorem change_circ_does_not_roll_back (E : Env) (c : Circ) (s : World)
    (t : TreeWidget) (e : Exn) :
  let tell := change_content_dict (tree_widget t) (circ_OBJECTS c) in
  tree (win s) = Some t ->
  oracle E (trace s) tell = Raises e ->
  change_circ E c s = (Err e, record E tell (Raises e) (repointed c s)) /\
  circ (win (snd (change_circ E c s))) = c /\
  trace (snd (change_circ E c s)) = trace s ++ [Ev tell (Raises e)].
Proof.
  intros tell Ht He.
  assert (Hrun : change_circ E c s = (Err e, record E tell (Raises e) (repointed c s))).
  { rewrite change_circ_steps, Ht.
    apply (bind_call_raises E tell _ (repointed c s) e He). }
  by rewrite Hrun.
Qed.

(** A run: the object tree of the demo window refuses the loaded circuit. *)
Lemma change_circ_does_not_roll_back_witness :
  circ (win (snd (change_circ failing_tree_env other_circ demo_world))) = other_circ.
Proof.
  apply (change_circ_does_not_roll_back failing_tree_env other_circ demo_world
           (mkTree 30 (Some 31)) (mkExn (OtherException "RuntimeError") "tree deleted"));
    reflexivity.
Defined.

(** A save or a load that fails is not reported as a success and changes
    nothing: for a non-empty filename, when [save_metal] raises, the body of
    the save action raises the same with no 'Successfully save' line logged;
    when [load_metal] raises, the body of the open action raises the same
    without [change_circ] having run: the window, its circuit included, is as
    it was, also once the slot has returned. *)
Theorem failed_persistence_changes_nothing (E : Env) (s : World) (f : string) (e : Exn) :
  f <> EmptyString ->
  (let dialog := getSaveFileName "Select locaiton to save Metal objects and circ to" in
   let save := save_metal f (circ (win s)) in
   answers E s dialog f ->
   oracle E (trace (record E dialog (Returns f) s)) save = Raises e ->
   action_save_metal_body E s
     = (Err e, extend E s [Ev dialog (Returns f); Ev save (Raises e)]) /\
   win (snd (action_save_metal E s)) = win s) /\
  (let dialog := getOpenFileName "Select locaiton to save Metal objects and circ to" in
   answers E s dialog f ->
   oracle E (trace (record E dialog (Returns f) s)) (load_metal f) = Raises e ->
   action_open_metal_body E s
     = (Err e, extend E s [Ev dialog (Returns f); Ev (load_metal f) (Raises e)]) /\
   win (snd (action_open_metal E s)) = win s).
Proof.
  intros Hne. split.
  - intros dialog save Hd He.
    assert (Hrun : action_save_metal_body E s
                   = (Err e, extend E s [Ev dialog (Returns f); Ev save (Raises e)])).
    { unfold action_save_metal_body. rewrite (bind_call_answers E _ _ _ _ Hd).
      destruct f as [|a f']; [done|].
      rewrite bind_get_win.
      assert (Hc : circ (win (record E dialog (Returns (String a f')) s)) = circ (win s))
        by done.
      rewrite Hc. fold save. rewrite (bind_call_raises E _ _ _ _ He).
      by rewrite !record_extend, !extend_extend. }
    split; [done|]. unfold action_save_metal. by rewrite catch_win, Hrun.
  - intros dialog Hd He.
    assert (Hrun : action_open_metal_body E s
                   = (Err e, extend E s [Ev dialog (Returns f);
                                         Ev (load_metal f) (Raises e)])).
    { unfold action_open_metal_body. rewrite (bind_call_answers E _ _ _ _ Hd).
      destruct f as [|a f']; [done|].
      rewrite (bind_call_raises E _ _ _ _ He).
      by rewrite !record_extend, !extend_extend. }
    split; [done|]. unfold action_open_metal. by rewrite catch_win, Hrun.
Qed.

(** A run: "chip.metal" cannot be read; the demo window keeps its circuit. *)
Lemma failed_persistence_changes_nothing_witness :
  win (snd (action_open_metal failing_persistence_env demo_world)) = win demo_world.
Proof.
  destruct (failed_persistence_changes_nothing failing_persistence_env demo_world
              "chip.metal" (mkExn (OtherException "UnpicklingError") "bad file"))
    as [_ Hopen]; [discriminate|].
  apply Hopen; reflexivity.
Defined.

(** ** The exception hook when the log panel fails *)

(** The window's hook writes to the log panel before it prints: when
    [log_message_to] raises, the hook raises the same and the traceback is
    never handed to [traceback.print_exception]; when the window has no log
    panel (the hook was called before [_setup_logging] made one), the hook
    raises [AttributeError] and calls nothing. *)
Theorem excepthook_fails_before_printing (E : Env) (t : ExcTriple) (s : World) :
  (forall lw e,
     let write := log_message_to lw "Errors"
                    (String.concat nl (format_exception E t)) in
     logger_window (win s) = Some lw ->
     oracle E (trace s) write = Raises e ->
     run_excepthook E window_excepthook t s = (Err e, record E write (Raises e) s)) /\
  (logger_window (win s) = None ->
   exists e, exn_class e = AttributeError /\
             run_excepthook E window_excepthook t s = (Err e, s)).
Proof.
  split.
  - intros lw e write Hlw He.
    rewrite (excepthook_runs E lw t s Hlw). fold write.
    by rewrite (bind_call_raises E _ _ _ _ He).
  - intros Hnone. eexists. split; [|simpl; unfold excepthook, bind, attr;
                                      by rewrite Hnone].
    reflexivity.
Qed.

(** A run: the widget of the log panel has been deleted. *)
Lemma excepthook_fails_before_printing_witness :
  trace (snd (run_excepthook failing_log_panel_env window_excepthook
                (mkTriple "ZeroDivisionError" "division by zero" []) demo_world))
    = [Ev (log_message_to 70 "Errors"
             (String.concat nl
                (format_exception failing_log_panel_env
                   (mkTriple "ZeroDivisionError" "division by zero" []))))
          (Raises (mkExn (OtherException "RuntimeError") "widget deleted"))].
Proof.
  destruct (excepthook_fails_before_printing failing_log_panel_env
              (mkTriple "ZeroDivisionError" "division by zero" []) demo_world)
    as [Hwrite _].
  rewrite (Hwrite 70 (mkExn (OtherException "RuntimeError") "widget deleted"));
    reflexivity.
Defined.

(** ** The loop over the classes to create *)

Section Loop.

Context (E : Env).

Lemma create_buttons_cons toolbar metal_class rest s :
  create_buttons E toolbar (metal_class :: rest) s =
    match add_metal_object E toolbar metal_class None s with
    | (Ok _, s') => create_buttons E toolbar rest s'
    | (Err e, s') => (Err e, s')
    end.
Proof. reflexivity. Qed.

End Loop.

(** The loop of [_setup_create_objects] over the configured classes: a class
    whose module does not import ([ImportError]) is logged and skipped, and
    the loop goes on with the classes after it; a class that is found but has
    no [_img] attribute ends the loop with the [TypeError] of [Path(None)]:
    no class after it is tried, and the exception leaves the loop. *)
Theorem create_buttons_skips_or_stops (E : Env) (toolbar : Ref)
    (metal_class : string) (rest : list string) (s : World) :
  let class_name := List.last (split_on "."%char metal_class) EmptyString in
  let import := import_module metal_class in
  (forall e msg,
     oracle E (trace s) import = Raises e ->
     is_ImportError (exn_class e) = true ->
     msg = "add_metal_object: Could not load object module for the toolbar."
           +:+ nl +:+ " Failed to load " +:+ metal_class +:+ nl
           +:+ " Please check the name path and that the file does not have errors. "
           +:+ nl +:+ "Error (" +:+ exn_str e +:+ "): " +:+ nl +:+ repr_exc_info E e ->
     answers E (record E import (Raises e) s) (logger_error msg) tt ->
     create_buttons E toolbar (metal_class :: rest) s
       = create_buttons E toolbar rest
           (extend E s [Ev import (Raises e); Ev (logger_error msg) (Returns tt)])) /\
  (forall module found,
     let find := getattr_module module class_name in
     answers E s import module ->
     answers E (record E import (Returns module) s) find found ->
     class__img found = None ->
     create_buttons E toolbar (metal_class :: rest) s
       = (Err (mkExn TypeError
                 "expected str, bytes or os.PathLike object, not NoneType"),
          extend E s [Ev import (Returns module); Ev find (Returns found)])).
Proof.
  intros class_name import. split.
  - intros e msg Himp Hcls -> Hlog. rewrite create_buttons_cons.
    unfold add_metal_object, bind at 1, try_except.
    fold import. rewrite (bind_call_raises E _ _ _ _ Himp), Hcls.
    rewrite (bind_call_answers E _ _ _ _ Hlog). simpl.
    by rewrite !record_extend, extend_extend.
  - intros module found find Himp Hfind Himg. rewrite create_buttons_cons.
    unfold add_metal_object, bind at 1, try_except.
    fold import. rewrite (bind_call_answers E _ _ _ _ Himp). simpl.
    unfold bind at 1, try_except. fold class_name find.
    rewrite (bind_call_answers E _ _ _ _ Hfind). simpl.
    rewrite Himg. simpl.
    by rewrite !record_extend, extend_extend.
Qed.

(** A run: of two configured classes the first has no [_img]; the second
    never gets its button. *)
Lemma create_buttons_skips_or_stops_witness :
  created (win (snd (create_buttons no_img_env 80
                       ["qiskit_metal.objects.Metal_Qubit";
                        "qiskit_metal.objects.Metal_Resonator"] demo_world)))
    = ∅.
Proof.
  destruct (create_buttons_skips_or_stops no_img_env 80
              "qiskit_metal.objects.Metal_Qubit"
              ["qiskit_metal.objects.Metal_Resonator"] demo_world) as [_ Hstop].
  rewrite (Hstop 60 class_without_img); reflexivity.
Defined.

(** ** Names and labels *)

Section Text.

Lemma app_String_cons c a b : String c a +:+ b = String c (a +:+ b).
Proof. reflexivity. Qed.

Lemma app_String_nil b : EmptyString +:+ b = b.
Proof. reflexivity. Qed.

Lemma app_empty_r s : s +:+ EmptyString = s.
Proof.
  induction s as [|c s IH]; [done|]. rewrite app_String_cons. by f_equal.
Qed.

Lemma app_String_assoc a b c : (a +:+ b) +:+ c = a +:+ (b +:+ c).
Proof.
  induction a as [|x a IH]; [done|]. rewrite !app_String_cons. by f_equal.
Qed.

Lemma occurs_app c a b : occurs c (a +:+ b) = occurs c a || occurs c b.
Proof.
  induction a as [|x a IH]; [done|]. rewrite app_String_cons. simpl.
  by destruct (Ascii.eqb x c).
Qed.

Lemma length_app a b : String.length (a +:+ b) = String.length a + String.length b.
Proof.
  induction a as [|x a IH]; [done|]. rewrite app_String_cons. simpl. by f_equal.
Qed.

Lemma split_on_not_nil sep s : split_on sep s <> [].
Proof.
  destruct s as [|c s]; simpl; [done|].
  destruct (Ascii.eqb c sep); [done|]. by destruct (split_on sep s).
Qed.

Lemma split_on_concat sep s :
  String.concat (String sep EmptyString) (split_on sep s) = s.
Proof.
  induction s as [|c s IH]; simpl; [done|].
  destruct (Ascii.eqb_spec c sep) as [->|Hne].
  - pose proof (split_on_not_nil sep s) as Hnil.
    destruct (split_on sep s) as [|x xs]; [done|].
    change (String.concat (String sep EmptyString) (EmptyString :: x :: xs))
      with (String sep (String.concat (String sep EmptyString) (x :: xs))).
    by rewrite IH.
  - pose proof (split_on_not_nil sep s) as Hnil.
    destruct (split_on sep s) as [|x xs]; [done|].
    destruct xs as [|y ys]; simpl in *; by rewrite <- IH.
Qed.

Lemma split_on_free sep s :
  Forall (fun x => occurs sep x = false) (split_on sep s).
Proof.
  induction s as [|c s IH]; simpl; [by repeat constructor|].
  destruct (Ascii.eqb c sep) eqn:Hc; [by constructor|].
  destruct (split_on sep s) as [|x xs]; [repeat constructor; simpl; by rewrite Hc|].
  inversion IH; subst. constructor; [|done]. simpl. by rewrite Hc.
Qed.

Lemma split_on_whole sep s : occurs sep s = false -> split_on sep s = [s].
Proof.
  induction s as [|c s IH]; simpl; [done|].
  destruct (Ascii.eqb c sep); [done|]. intros H. by rewrite (IH H).
Qed.

Lemma concat_last sep (l : list string) :
  l <> [] ->
  exists pre,
    String.concat sep l = pre +:+ List.last l EmptyString /\
    (pre = EmptyString \/ exists p, pre = p +:+ sep).
Proof.
  induction l as [|x l IH]; [done|]. intros _.
  destruct l as [|y l].
  - exists EmptyString. simpl. split; [done|by left].
  - destruct IH as (pre & Hpre & Hshape); [done|].
    exists (x +:+ sep +:+ pre). split.
    + change (String.concat sep (x :: y :: l))
        with (x +:+ sep +:+ String.concat sep (y :: l)).
      rewrite Hpre. change (List.last (x :: y :: l) EmptyString)
        with (List.last (y :: l) EmptyString).
      by rewrite !app_String_assoc.
    + right. destruct Hshape as [->|[p ->]].
      * exists x. by rewrite app_empty_r.
      * exists (x +:+ sep +:+ p). by rewrite !app_String_assoc.
Qed.

End Text.

Section Labels.

Lemma Forall_last_string (P : string -> Prop) (l : list string) :
  l <> [] -> Forall P l -> P (List.last l EmptyString).
Proof.
  induction l as [|x l IH]; [done|]. intros _ H. inversion H; subst.
  destruct l as [|y l]; [done|]. by apply IH.
Qed.

Lemma replace_char_free a b s : a <> b -> occurs a (replace_char a b s) = false.
Proof.
  intros Hab. induction s as [|c s IH]; simpl; [done|].
  destruct (Ascii.eqb_spec c a) as [->|Hca].
  - destruct (Ascii.eqb_spec b a) as [->|_]; [done|exact IH].
  - destruct (Ascii.eqb_spec c a); [done|exact IH].
Qed.

Lemma replace_char_length a b s :
  String.length (replace_char a b s) = String.length s.
Proof. induction s as [|c s IH]; simpl; [done|]. by f_equal. Qed.

Lemma substring_free c s :
  occurs c s = false -> forall n m, occurs c (String.substring n m s) = false.
Proof.
  induction s as [|x s IH]; intros H n m.
  - by destruct n, m.
  - simpl in H. destruct (Ascii.eqb x c) eqn:Hx; [done|].
    destruct n as [|n]; [destruct m as [|m]|]; simpl; [done| |by apply IH].
    rewrite Hx. by apply IH.
Qed.

Lemma substring_all s : String.substring 0 (String.length s) s = s.
Proof. induction s as [|c s IH]; simpl; [done|]. by f_equal. Qed.

Lemma str_halves n : forall s,
  n <= String.length s ->
  str_upto n s +:+ str_from n s = s /\ String.length (str_upto n s) = n.
Proof.
  unfold str_upto, str_from.
  induction n as [|n IH]; intros s Hn.
  - rewrite Nat.sub_0_r, substring_all. by destruct s.
  - destruct s as [|c s]; simpl in Hn; [lia|].
    destruct (IH s) as [Hs Hl]; [lia|]. simpl.
    rewrite app_String_cons, Hs. simpl. by rewrite Hl.
Qed.

End Labels.

(** The class [add_metal_object] looks up in the module is the last dotted
    component of the path it is given: it holds no dot, the path is made of a
    prefix that is empty or ends with a dot followed by it, and a path
    without a dot is its own class name.  Splitting at the dots loses
    nothing: joining the components with dots gives the path back. *)
Theorem class_name_is_last_component (metal_class_name : string) :
  let class_name := List.last (split_on "."%char metal_class_name) EmptyString in
  String.concat "." (split_on "."%char metal_class_name) = metal_class_name /\
  occurs "."%char class_name = false /\
  (occurs "."%char metal_class_name = false -> class_name = metal_class_name) /\
  exists pre,
    metal_class_name = pre +:+ class_name /\
    (pre = EmptyString \/ exists p, pre = p +:+ ".").
Proof.
  intros class_name. split; [apply split_on_concat|]. split; [|split].
  - apply (Forall_last_string (fun x => occurs "."%char x = false));
      [apply split_on_not_nil|apply split_on_free].
  - intros H. unfold class_name. by rewrite (split_on_whole _ _ H).
  - destruct (concat_last "." (split_on "."%char metal_class_name)
                (split_on_not_nil _ _)) as (pre & Hpre & Hshape).
    exists pre. split; [|done].
    unfold class_name. by rewrite <- Hpre, split_on_concat.
Qed.

(** The label of a creation button: it holds no underscore; a label of at
    most 14 characters (underscores replaced, a leading 'Metal ' dropped) is
    shown as it is; a longer one is cut in the middle, the first half having
    half the length rounded down, with a hyphen and a line break put between
    the halves and nothing lost. *)
Theorem toolbar_label_shape (tool_name : string) :
  let label := plain_label tool_name in
  occurs "_"%char (toolbar_label tool_name) = false /\
  (String.length label <= 14 -> toolbar_label tool_name = label) /\
  (14 < String.length label ->
   exists a b,
     toolbar_label tool_name = a +:+ "-" +:+ nl +:+ b /\
     a +:+ b = label /\
     String.length a = String.length label / 2 /\
     String.length (toolbar_label tool_name) = String.length label + 2).
Proof.
  intros label.
  assert (Hfree : occurs "_"%char label = false).
  { unfold label, plain_label.
    assert (H0 : occurs "_"%char (replace_char "_"%char " "%char tool_name) = false)
      by (by apply replace_char_free).
    destruct (String.prefix _ _); [|done]. by apply substring_free. }
  assert (Hdef : toolbar_label tool_name =
                 if Nat.ltb 14 (String.length label)
                 then str_upto (String.length label / 2) label +:+ "-" +:+ nl
                      +:+ str_from (String.length label / 2) label
                 else label) by reflexivity.
  destruct (Nat.ltb_spec 14 (String.length label)) as [Hlong|Hshort].
  - destruct (str_halves (String.length label / 2) label) as [Hs Hl].
    { apply Nat.Div0.div_le_upper_bound. lia. }
    split; [|split; [lia|]].
    + assert (Hup : forall n, occurs "_"%char (str_upto n label) = false)
        by (intros n; by apply substring_free).
      assert (Hfrom : forall n, occurs "_"%char (str_from n label) = false)
        by (intros n; by apply substring_free).
      by rewrite Hdef, !occurs_app, Hup, Hfrom.
    + intros _. do 2 eexists. split; [exact Hdef|]. split; [exact Hs|].
      split; [exact Hl|].
      rewrite Hdef, !length_app, Hl.
      assert (Hsum : String.length (str_upto (String.length label / 2) label)
                     + String.length (str_from (String.length label / 2) label)
                     = String.length label) by (by rewrite <- length_app, Hs).
      rewrite Hl in Hsum.
      change (String.length "-") with 1. change (String.length nl) with 1. lia.
  - split; [by rewrite Hdef|]. split; [by rewrite Hdef|lia].
Qed.
